(** * SENSEX forecast app: feature engineering, row selection, inference, decoding

    A shallow embedding of [app.py].  The script is a straight-line
    Streamlit program over a pandas [DataFrame]; it is modelled as a
    function from what the outside world supplies (the result of loading
    the three models and the table returned by the data provider) to the
    trace of observable effects (model calls and Streamlit boxes) together
    with the way the script ends: its last line, [st.stop()], or an
    exception that nothing catches.

    Numbers.  pandas columns hold IEEE binary64 values.  A cell is NaN, an
    infinity or a finite value; the finite values are idealised as real
    numbers, so the arithmetic below does not round, does not overflow and
    has one zero.  What the script does next depends on which cells are
    NaN ([dropna] removes NaN and nothing else), and the theorems about
    the script are about that: which cells are missing, which rows are
    kept, what is shown and what the models are called with.  They do not
    state the values pandas computes, and where its running sums could
    overflow they ask for closes of moderate size ([moderate]).

    Tables.  A frame is the list of its named columns.  pandas keeps the
    columns of a frame at one length; with two columns of one name
    [df[name]] is a sub-frame and the script takes other paths.  The
    statements below are about tables whose formatted names are distinct
    and whose columns have the length of the index ([well_formed],
    [frame_ok]).  Names are ASCII. *)

From Stdlib Require Import Reals Lra String Ascii ZArith Bool Arith Lia List.
Import ListNotations.

Open Scope R_scope.

(** ** Cells *)

Inductive fval : Type :=
| Fin (x : R)
| Inf (negative : bool)
| NaN.

(** [pd.isna] on a float cell. *)
Definition isna (v : fval) : bool :=
  match v with NaN => true | _ => false end.

Definition notna (v : fval) : bool := negb (isna v).

Definition Rnegative (x : R) : bool :=
  if Rlt_dec x 0 then true else false.

Definition Rzero (x : R) : bool :=
  if Req_dec_T x 0 then true else false.

Definition fadd (a b : fval) : fval :=
  match a, b with
  | NaN, _ | _, NaN => NaN
  | Fin x, Fin y => Fin (x + y)
  | Inf s, Inf t => if eqb s t then Inf s else NaN
  | Inf s, Fin _ => Inf s
  | Fin _, Inf t => Inf t
  end.

Definition fsub (a b : fval) : fval :=
  match a, b with
  | NaN, _ | _, NaN => NaN
  | Fin x, Fin y => Fin (x - y)
  | Inf s, Inf t => if eqb s t then NaN else Inf s
  | Inf s, Fin _ => Inf s
  | Fin _, Inf t => Inf (negb t)
  end.

Definition fmul (a b : fval) : fval :=
  match a, b with
  | NaN, _ | _, NaN => NaN
  | Fin x, Fin y => Fin (x * y)
  | Inf s, Inf t => Inf (xorb s t)
  | Inf s, Fin y => if Rzero y then NaN else Inf (xorb s (Rnegative y))
  | Fin x, Inf t => if Rzero x then NaN else Inf (xorb (Rnegative x) t)
  end.

(** Float division as numpy performs it on a column: a zero divisor does
    not raise, it yields an infinity, or NaN for 0/0.  The sign of a zero
    is not modelled: the infinity is given the sign it has for [+0.0]. *)
Definition fdiv (a b : fval) : fval :=
  match a, b with
  | NaN, _ | _, NaN => NaN
  | Fin x, Fin y =>
      if Rzero y then (if Rzero x then NaN else Inf (Rnegative x))
      else Fin (x / y)
  | Fin _, Inf _ => Fin 0
  | Inf s, Fin y => Inf (xorb s (Rnegative y))
  | Inf _, Inf _ => NaN
  end.

Definition fsqrt (a : fval) : fval :=
  match a with
  | NaN => NaN
  | Fin x => if Rnegative x then NaN else Fin (sqrt x)
  | Inf s => if s then NaN else Inf false
  end.

(** ** Series *)

Definition Series := list fval.

Definition zip_with (f : fval -> fval -> fval) (a b : Series) : Series :=
  map (fun p => f (fst p) (snd p)) (combine a b).

Definition series_sub : Series -> Series -> Series := zip_with fsub.
Definition series_div : Series -> Series -> Series := zip_with fdiv.
Definition series_mul_scalar (a : Series) (k : R) : Series :=
  map (fun v => fmul v (Fin k)) a.

Definition fsum (l : list fval) : fval := fold_left fadd l (Fin 0).

Definition fmean (obs : list fval) : fval :=
  fdiv (fsum obs) (Fin (INR (length obs))).

(** Sample standard deviation: pandas' [std] has [ddof=1]. *)
Definition fstd (obs : list fval) : fval :=
  let m := fmean obs in
  let dev2 := map (fun x => fmul (fsub x m) (fsub x m)) obs in
  fsqrt (fdiv (fsum dev2) (Fin (INR (length obs - 1)))).

(** [Series.rolling(window=w)]: a fixed trailing window that ends at the
    current row and includes it.  pandas turns infinite cells into NaN
    before it aggregates, so the observations of a window are its finite
    cells.  [min_periods] is not given, so it is the window size: the
    result is NaN unless the window holds [w] observations.  The aggregate
    of a full window stands for the value pandas computes for it; [fmean]
    and [fstd] give that value without rounding. *)
Definition window (w : nat) (xs : Series) (i : nat) : list fval :=
  skipn (S i - w) (firstn (S i) xs).

Definition observed (v : fval) : bool :=
  match v with Fin _ => true | _ => false end.

Definition rolling (w : nat) (agg : list fval -> fval) (xs : Series) : Series :=
  map (fun i =>
         let obs := filter observed (window w xs i) in
         if (length obs <? w)%nat then NaN else agg obs)
      (seq 0 (length xs)).

Definition rolling_mean (w : nat) : Series -> Series := rolling w fmean.
Definition rolling_std (w : nat) : Series -> Series := rolling w fstd.

(** ** Column labels (lines 34-35)

    A label of the provider's table is a string, or a tuple of strings when
    the header has several levels.  Labels are taken to be ASCII. *)

Inductive label : Type :=
| LStr (s : string)
| LTuple (first : string) (rest : list string).

Definition is_space (c : ascii) : bool :=
  let n := nat_of_ascii c in
  ((9 <=? n) && (n <=? 13) || (28 <=? n) && (n <=? 32))%nat.

Definition is_upper (c : ascii) : bool :=
  let n := nat_of_ascii c in ((65 <=? n) && (n <=? 90))%nat.

Definition is_lower (c : ascii) : bool :=
  let n := nat_of_ascii c in ((97 <=? n) && (n <=? 122))%nat.

Definition is_cased (c : ascii) : bool := is_upper c || is_lower c.

Definition to_upper (c : ascii) : ascii :=
  if is_lower c then ascii_of_nat (nat_of_ascii c - 32) else c.

Definition to_lower (c : ascii) : ascii :=
  if is_upper c then ascii_of_nat (nat_of_ascii c + 32) else c.

Fixpoint lstrip (s : string) : string :=
  match s with
  | EmptyString => EmptyString
  | String c s' => if is_space c then lstrip s' else s
  end.

Fixpoint rstrip (s : string) : string :=
  match s with
  | EmptyString => EmptyString
  | String c s' =>
      match rstrip s' with
      | EmptyString => if is_space c then EmptyString else String c EmptyString
      | r => String c r
      end
  end.

(** [str.strip()] *)
Definition strip (s : string) : string := rstrip (lstrip s).

(** [str.title()]: a letter that follows a letter is lowered, any other
    letter is raised. *)
Fixpoint title_from (previous_is_cased : bool) (s : string) : string :=
  match s with
  | EmptyString => EmptyString
  | String c s' =>
      String (if previous_is_cased then to_lower c else to_upper c)
             (title_from (is_cased c) s')
  end.

Definition title (s : string) : string := title_from false s.

(** Line 34: [col[0] if isinstance(col, tuple) else col]. *)
Definition first_level (col : label) : string :=
  match col with
  | LTuple first _ => first
  | LStr s => s
  end.

(** Line 35: [str(col).strip().title()]. *)
Definition format_name (col : string) : string := title (strip col).

Definition format_label (col : label) : string := format_name (first_level col).

(** ** Exceptions and results *)

Inductive exn : Type :=
| KeyError (key : string)
| IndexError
| ValueError
| OtherError (msg : string).

Definition result (A : Type) : Type := (exn + A)%type.

Definition ok {A} (a : A) : result A := inr a.
Definition throw {A} (e : exn) : result A := inl e.

Definition rbind {A B} (r : result A) (k : A -> result B) : result B :=
  match r with
  | inl e => inl e
  | inr a => k a
  end.

Declare Scope result_scope.
Delimit Scope result_scope with result.
Notation "x <- r ;; k" := (rbind r (fun x => k))
  (at level 61, r at next level, right associativity) : result_scope.

Fixpoint map_result {A B} (f : A -> result B) (l : list A) : result (list B) :=
  match l with
  | [] => ok []
  | a :: l' =>
      (b <- f a ;; bs <- map_result f l' ;; ok (b :: bs))%result
  end.

(** ** Data frames

    A frame is the list of its columns in order; rows are positions.  All
    statements about a frame assume its labels distinct and its columns of
    one length, as pandas keeps them for the table the script builds. *)

Definition DataFrame := list (string * Series).

Definition columns (df : DataFrame) : list string := map fst df.

Definition nrows (df : DataFrame) : nat :=
  match df with
  | [] => 0
  | c :: _ => length (snd c)
  end.

(** [df.empty] *)
Definition empty (df : DataFrame) : bool :=
  (length df =? 0)%nat || (nrows df =? 0)%nat.

(** [df[name]] *)
Fixpoint getitem (df : DataFrame) (name : string) : result Series :=
  match df with
  | [] => throw (KeyError name)
  | (n, s) :: rest => if String.eqb n name then ok s else getitem rest name
  end.

(** [df[name] = s] *)
Fixpoint setitem (df : DataFrame) (name : string) (s : Series) : DataFrame :=
  match df with
  | [] => [(name, s)]
  | (n, c) :: rest =>
      if String.eqb n name then (n, s) :: rest
      else (n, c) :: setitem rest name s
  end.

(** [name in df.columns] *)
Definition has_column (df : DataFrame) (name : string) : bool :=
  existsb (String.eqb name) (columns df).

Definition select {A} (keep : list bool) (s : list A) : list A :=
  map snd (filter fst (combine keep s)).

(** The rows [dropna] keeps: those with no NaN in any column of the subset. *)
Definition complete_rows (cols : list Series) (n : nat) : list bool :=
  map (fun i => forallb (fun s => notna (nth i s NaN)) cols) (seq 0 n).

(** [df.dropna(subset=subset)] *)
Definition dropna (subset : list string) (df : DataFrame) : result DataFrame :=
  (cols <- map_result (getitem df) subset ;;
   let keep := complete_rows cols (nrows df) in
   ok (map (fun c => (fst c, select keep (snd c))) df))%result.

(** [s.iloc[-1]] *)
Definition iloc_last (s : Series) : result fval :=
  match s with
  | [] => throw IndexError
  | _ => ok (last s NaN)
  end.

(** [df[subset].iloc[-1]] *)
Definition last_row (subset : list string) (df : DataFrame) : result (list fval) :=
  (cols <- map_result (getitem df) subset ;;
   map_result iloc_last cols)%result.

(** ** Effects of a run

    The trace records what an observer of the script can see: each call of
    a model's [predict] with its argument, and each Streamlit box that
    carries data.  Boxes whose text is fixed (title, rules, captions) are
    left out.  The error boxes correspond to the specification's error
    classes: [ErrFetch] to the provider error, [ErrMissingColumns] to the
    schema error, [ErrNotEnoughData] to the insufficient-data error and
    [ErrPrediction] to the inference error. *)

Inductive model_id : Type := RegModel | ClfModel | SignalModel.

Inductive error_box : Type :=
| ErrLoadingModels (e : exn)
| ErrFetch
| ErrMissingColumns (missing_cols : list string)
| ErrNotEnoughData
| ErrPrediction (e : exn).

Inductive event : Type :=
| Predict (m : model_id) (X : list (list fval))
| StError (box : error_box)
| StDate (latest_date : R)
| StDataframe (latest_input : list fval)
| StSuccess (pred_close : fval)
| StInfo (direction_text : string)
| StWarning (signal_text : string)
| StExplain (latest_date : R).

(** How a run ends before its last line: [st.stop()], or an exception that
    nothing catches. *)
Inductive halt : Type :=
| Stopped
| Uncaught (e : exn).

Definition M (A : Type) : Type := (list event * (halt + A))%type.

Definition ret {A} (a : A) : M A := ([], inr a).

Definition bind {A B} (m : M A) (k : A -> M B) : M B :=
  match m with
  | (t, inl h) => (t, inl h)
  | (t, inr a) => let (t', r) := k a in (t ++ t', r)
  end.

Declare Scope app_scope.
Delimit Scope app_scope with app.
Notation "x <- m ;; k" := (bind m (fun x => k))
  (at level 61, m at next level, right associativity) : app_scope.
Notation "m ;; k" := (bind m (fun _ => k))
  (at level 61, right associativity) : app_scope.

Definition emit (e : event) : M unit := ([e], inr tt).

Definition st_error (box : error_box) : M unit := emit (StError box).

Definition st_stop {A} : M A := ([], inl Stopped).

Definition lift {A} (r : result A) : M A :=
  match r with
  | inl e => ([], inl (Uncaught e))
  | inr a => ([], inr a)
  end.

(** [try: body except Exception as e: handler e].  [st.stop()] is not an
    [Exception] and passes through. *)
Definition try_except {A} (body : M A) (handler : exn -> M A) : M A :=
  match body with
  | (t, inl (Uncaught e)) => let (t', r) := handler e in (t ++ t', r)
  | _ => body
  end.

(** ** The models

    A model is an opaque [predict] from a batch of feature vectors to a
    batch of outputs, which may raise. *)

Record Models : Type := {
  reg_model : list (list fval) -> result (list fval);
  clf_model : list (list fval) -> result (list Z);
  signal_model : list (list fval) -> result (list Z)
}.

Definition call_predict {A} (m : model_id)
    (predict : list (list fval) -> result (list A)) (X : list (list fval))
    : M (list A) :=
  (emit (Predict m X) ;; lift (predict X))%app.

(** [batch[0]] *)
Definition first {A} (batch : list A) : M A :=
  match batch with
  | [] => lift (throw IndexError)
  | y :: _ => ret y
  end.

(** ** The provider's table (lines 25-35) *)

Record Fetched : Type := {
  index_label : label;
  index : Series;
  data : list (label * Series)
}.

Definition fetched_empty (f : Fetched) : bool :=
  (length (index f) =? 0)%nat || (length (data f) =? 0)%nat.

(** [df.reset_index(inplace=True)]: the date index becomes the first
    column, under the label pandas gives it. *)
Definition reset_index (f : Fetched) : list (label * Series) :=
  (index_label f, index f) :: data f.

Definition format_columns (t : list (label * Series)) : DataFrame :=
  map (fun c => (format_label (fst c), snd c)) t.

Definition well_formed (f : Fetched) : Prop :=
  NoDup (columns (format_columns (reset_index f))) /\
  Forall (fun c => length (snd c) = length (index f)) (data f).

(** ** Feature engineering (lines 39-44) *)

Definition feature_engineering (df : DataFrame) : result DataFrame :=
  (close <- getitem df "Close" ;;
   let df := setitem df "Sma_5" (rolling_mean 5 close) in
   close <- getitem df "Close" ;;
   let df := setitem df "Sma_10" (rolling_mean 10 close) in
   high <- getitem df "High" ;;
   low <- getitem df "Low" ;;
   let df := setitem df "Price_Range" (series_sub high low) in
   close <- getitem df "Close" ;;
   open <- getitem df "Open" ;;
   let df := setitem df "Daily_Change_%"
               (series_mul_scalar (series_div (series_sub close open) open) 100) in
   close <- getitem df "Close" ;;
   let df := setitem df "Rolling_Std_5" (rolling_std 5 close) in
   close <- getitem df "Close" ;;
   open <- getitem df "Open" ;;
   ok (setitem df "Close/Open" (series_div close open)))%result.

(** Lines 47-51. *)
Definition features : list string :=
  ["Open"; "High"; "Low"; "Volume";
   "Sma_5"; "Sma_10"; "Price_Range";
   "Daily_Change_%"; "Rolling_Std_5"; "Close/Open"]%string.

(** ** Decoding (lines 80-82) *)

Definition direction_text (pred_direction : Z) : string :=
  if (pred_direction =? 1)%Z then "📈 Up"%string else "📉 Down"%string.

Definition signal_map : list (Z * string) :=
  [(0%Z, "🔻 SELL"%string); (1%Z, "⏸ HOLD"%string); (2%Z, "🔺 BUY"%string)].

(** [dict.get(key, default)] *)
Fixpoint dict_get (d : list (Z * string)) (key : Z) (default : string) : string :=
  match d with
  | [] => default
  | (k, v) :: rest => if (k =? key)%Z then v else dict_get rest key default
  end.

Definition signal_text (pred_signal : Z) : string :=
  dict_get signal_map pred_signal "Unknown"%string.

(** [.strftime] of the last date; a missing date has no [strftime]. *)
Definition strftime (d : fval) : result R :=
  match d with
  | Fin t => ok t
  | _ => throw ValueError
  end.

(** ** The script *)

(** Lines 71-73, inside the [try]. *)
Definition predictions (models : Models) (latest_input : list fval)
    : M (fval * Z * Z) :=
  (batch <- call_predict RegModel (reg_model models) [latest_input] ;;
   pred_close <- first batch ;;
   batch <- call_predict ClfModel (clf_model models) [latest_input] ;;
   pred_direction <- first batch ;;
   batch <- call_predict SignalModel (signal_model models) [latest_input] ;;
   pred_signal <- first batch ;;
   ret (pred_close, pred_direction, pred_signal))%app.

(** Lines 70-76. *)
Definition make_predictions (models : Models) (latest_input : list fval)
    : M (fval * Z * Z) :=
  try_except (predictions models latest_input)
    (fun e => st_error (ErrPrediction e) ;; st_stop)%app.

(** Lines 80-115: decode the two codes and show the result.  The displayed
    close is [round(pred_close, 2)]; the event keeps the value itself. *)
Definition decode_and_display (latest_date : R) (latest_input : list fval)
    (p : fval * Z * Z) : M unit :=
  let '(pred_close, pred_direction, pred_signal) := p in
  (emit (StDate latest_date) ;;
   emit (StDataframe latest_input) ;;
   emit (StSuccess pred_close) ;;
   emit (StInfo (direction_text pred_direction)) ;;
   emit (StWarning (signal_text pred_signal)) ;;
   emit (StExplain latest_date))%app.

(** Lines 66-67 on the filtered frame. *)
Definition latest_date_of (df : DataFrame) : result R :=
  (date <- getitem df "Date" ;;
   d <- iloc_last date ;;
   strftime d)%result.

Definition app (loaded : result Models) (fetched : Fetched) : M unit :=
  (models <- try_except (lift loaded)
               (fun e => st_error (ErrLoadingModels e) ;; st_stop) ;;
   if fetched_empty fetched then st_error ErrFetch ;; st_stop else
   let df := format_columns (reset_index fetched) in
   df <- lift (feature_engineering df) ;;
   let missing_cols := filter (fun col => negb (has_column df col)) features in
   if negb (length missing_cols =? 0)%nat
   then st_error (ErrMissingColumns missing_cols) ;; st_stop else
   df <- lift (dropna features df) ;;
   if empty df then st_error ErrNotEnoughData ;; st_stop else
   latest_input <- lift (last_row features df) ;;
   latest_date <- lift (latest_date_of df) ;;
   p <- make_predictions models latest_input ;;
   decode_and_display latest_date latest_input p)%app.

(** ** Reading frames in statements *)

(** All columns have [n] rows. *)
Definition uniform (df : DataFrame) (n : nat) : Prop :=
  Forall (fun c => length (snd c) = n) df.

Definition frame_ok (df : DataFrame) : Prop :=
  NoDup (columns df) /\ uniform df (nrows df).

(** The cell of column [name] at row [i]. *)
Definition cell (df : DataFrame) (name : string) (i : nat) : fval :=
  match getitem df name with
  | inr s => nth i s NaN
  | inl _ => NaN
  end.

Definition row (df : DataFrame) (names : list string) (i : nat) : list fval :=
  map (fun name => cell df name i) names.

(** ** Closed forms of the rolling statistics, as the specification words
    them: mean of the last 5 (10) closes, sample standard deviation of the
    last 5 closes.  [close k] is the close of row [k]. *)

Definition spec_sma_5 (close : nat -> R) (i : nat) : R :=
  (close (i - 4)%nat + close (i - 3)%nat + close (i - 2)%nat
   + close (i - 1)%nat + close i) / 5.

Definition spec_sma_10 (close : nat -> R) (i : nat) : R :=
  (close (i - 9)%nat + close (i - 8)%nat + close (i - 7)%nat
   + close (i - 6)%nat + close (i - 5)%nat + close (i - 4)%nat
   + close (i - 3)%nat + close (i - 2)%nat + close (i - 1)%nat + close i) / 10.

Definition spec_rolling_std_5 (close : nat -> R) (i : nat) : R :=
  let m := spec_sma_5 close i in
  sqrt (((close (i - 4)%nat - m) ^ 2 + (close (i - 3)%nat - m) ^ 2
         + (close (i - 2)%nat - m) ^ 2 + (close (i - 1)%nat - m) ^ 2
         + (close i - m) ^ 2) / 4).

(** ** Sample inputs

    A table shaped as the provider returns it: a date index and a
    two-level header whose first level names the field. *)

Definition ticker : string := "^BSESN".

Definition yf_table (dates opens highs lows closes volumes : Series) : Fetched :=
  {| index_label := LTuple "Date" [""%string];
     index := dates;
     data := [(LTuple "Close" [ticker], closes);
              (LTuple "High" [ticker], highs);
              (LTuple "Low" [ticker], lows);
              (LTuple "Open" [ticker], opens);
              (LTuple "Volume" [ticker], volumes)] |}.

Definition one_to_ten : list R := [1; 2; 3; 4; 5; 6; 7; 8; 9; 10].

(** Ten days on which every price is the day's number and no volume. *)
Definition ten_days : Fetched :=
  yf_table (map Fin one_to_ten) (map Fin one_to_ten) (map Fin one_to_ten)
           (map Fin one_to_ten) (map Fin one_to_ten) (repeat (Fin 0) 10).

Definition ten_days_frame : DataFrame := format_columns (reset_index ten_days).

(** Row [i] has no missing value in the columns [names]. *)
Definition complete (df : DataFrame) (names : list string) (i : nat) : bool :=
  forallb (fun name => notna (cell df name i)) names.

(** The positions of the complete rows, in order. *)
Definition kept_rows (df : DataFrame) (names : list string) : list nat :=
  filter (complete df names) (seq 0 (nrows df)).

(** Three engineered rows: the first lacks [Sma_10], the last lacks
    [Close/Open]. *)
Definition three_rows : DataFrame :=
  [("Date", [Fin 1; Fin 2; Fin 3]);
   ("Close", [Fin 5; Fin 6; NaN]);
   ("High", [Fin 7; Fin 8; Fin 9]);
   ("Low", [Fin 4; Fin 5; Fin 6]);
   ("Open", [Fin 5; Fin 5; Fin 7]);
   ("Volume", [Fin 0; Fin 0; Fin 0]);
   ("Sma_5", [Fin 5; Fin 5; Fin 5]);
   ("Sma_10", [NaN; Fin 5; Fin 5]);
   ("Price_Range", [Fin 3; Fin 3; Fin 3]);
   ("Daily_Change_%", [Fin 0; Fin 20; NaN]);
   ("Rolling_Std_5", [Fin 1; Fin 1; Fin 1]);
   ("Close/Open", [Fin 1; Fin (6 / 5); NaN])]%string.

(** The two division features of one row (lines 42 and 44, cell by cell). *)
Definition daily_change_pct (close open : fval) : fval :=
  fmul (fdiv (fsub close open) open) (Fin 100).

Definition close_over_open (close open : fval) : fval := fdiv close open.

(** The value of [model.predict([latest_input])[0]]. *)
Definition output {A} (predict : list (list fval) -> result (list A))
    (latest_input : list fval) : result A :=
  match predict [latest_input] with
  | inl e => inl e
  | inr [] => inl IndexError
  | inr (y :: _) => inr y
  end.

(** The run gets as far as the models, with this input row and date. *)
Definition selects (fetched : Fetched) (latest_input : list fval)
    (latest_date : R) : Prop :=
  fetched_empty fetched = false /\
  exists df df',
    feature_engineering (format_columns (reset_index fetched)) = ok df /\
    (forall f, In f features -> has_column df f = true) /\
    dropna features df = ok df' /\
    empty df' = false /\
    last_row features df' = ok latest_input /\
    latest_date_of df' = ok latest_date.

(** What Streamlit shows after three successful predictions. *)
Definition shown (latest_date : R) (latest_input : list fval)
    (pred_close : fval) (pred_direction pred_signal : Z) : list event :=
  [StDate latest_date; StDataframe latest_input; StSuccess pred_close;
   StInfo (direction_text pred_direction);
   StWarning (signal_text pred_signal); StExplain latest_date].


(** The provider returned no rows. *)
Definition no_days : Fetched := yf_table [] [] [] [] [] [].

(** Three days only. *)
Definition three_days : Fetched :=
  yf_table (map Fin [1; 2; 3]) (map Fin [1; 2; 3]) (map Fin [1; 2; 3])
           (map Fin [1; 2; 3]) (map Fin [1; 2; 3]) (repeat (Fin 0) 3).

(** Ten days without a close column, and ten days without a volume column. *)
Definition no_close_column : Fetched :=
  {| index_label := LTuple "Date" [""%string];
     index := map Fin one_to_ten;
     data := [(LTuple "High" [ticker], map Fin one_to_ten);
              (LTuple "Low" [ticker], map Fin one_to_ten);
              (LTuple "Open" [ticker], map Fin one_to_ten);
              (LTuple "Volume" [ticker], repeat (Fin 0) 10)] |}.

Definition no_volume_column : Fetched :=
  {| index_label := LTuple "Date" [""%string];
     index := map Fin one_to_ten;
     data := [(LTuple "Close" [ticker], map Fin one_to_ten);
              (LTuple "High" [ticker], map Fin one_to_ten);
              (LTuple "Low" [ticker], map Fin one_to_ten);
              (LTuple "Open" [ticker], map Fin one_to_ten)] |}.

(** Stub models: the regressor returns the first input of each vector, the
    classifier and the signal model return fixed codes. *)
Definition stub_models (direction signal : Z) : Models :=
  {| reg_model := fun X => ok (map (fun v => hd NaN v) X);
     clf_model := fun X => ok (map (fun _ => direction) X);
     signal_model := fun X => ok (map (fun _ => signal) X) |}.

(** The same, with a classifier that raises. *)
Definition failing_classifier (msg : string) : Models :=
  {| reg_model := fun X => ok (map (fun v => hd NaN v) X);
     clf_model := fun _ => throw (OtherError msg);
     signal_model := fun X => ok (map (fun _ => 2%Z) X) |}.

(** The model calls of a trace, in order. *)
Definition predict_calls (t : list event) : list (model_id * list (list fval)) :=
  flat_map (fun ev => match ev with
                      | Predict m X => [(m, X)]
                      | _ => []
                      end) t.

(** ** Further vocabulary for statements *)

(** [str.lower()] on ASCII, to say that two names differ in case only. *)
Fixpoint lower (s : string) : string :=
  match s with
  | EmptyString => EmptyString
  | String c s' => String (to_lower c) (lower s')
  end.

(** A string of whitespace only. *)
Fixpoint blank (s : string) : bool :=
  match s with
  | EmptyString => true
  | String c s' => is_space c && blank s'
  end.


(** The columns that feature engineering writes, and those it reads. *)
Definition derived : list string :=
  ["Sma_5"; "Sma_10"; "Price_Range"; "Daily_Change_%"; "Rolling_Std_5";
   "Close/Open"]%string.

Definition raw_inputs : list string := ["Close"; "High"; "Low"; "Open"]%string.

(** ** The exits of the script

    [exit loaded fetched r]: the run on [loaded] and [fetched] leaves the
    script by one of its nine ways out, with trace and ending [r].  Each
    constructor is one way out, in the order of the source. *)

Definition missing (df : DataFrame) : list string :=
  filter (fun col => negb (has_column df col)) features.

Inductive exit (loaded : result Models) (fetched : Fetched) : M unit -> Prop :=
| exit_loading (e : exn) :
    loaded = inl e ->
    exit loaded fetched ([StError (ErrLoadingModels e)], inl Stopped)
| exit_fetch (models : Models) :
    loaded = inr models ->
    fetched_empty fetched = true ->
    exit loaded fetched ([StError ErrFetch], inl Stopped)
| exit_engineering (models : Models) (e : exn) :
    loaded = inr models ->
    fetched_empty fetched = false ->
    feature_engineering (format_columns (reset_index fetched)) = inl e ->
    exit loaded fetched ([], inl (Uncaught e))
| exit_missing (models : Models) (df : DataFrame) :
    loaded = inr models ->
    fetched_empty fetched = false ->
    feature_engineering (format_columns (reset_index fetched)) = inr df ->
    missing df <> [] ->
    exit loaded fetched ([StError (ErrMissingColumns (missing df))], inl Stopped)
| exit_dropna (models : Models) (df : DataFrame) (e : exn) :
    loaded = inr models ->
    fetched_empty fetched = false ->
    feature_engineering (format_columns (reset_index fetched)) = inr df ->
    missing df = [] ->
    dropna features df = inl e ->
    exit loaded fetched ([], inl (Uncaught e))
| exit_not_enough (models : Models) (df df' : DataFrame) :
    loaded = inr models ->
    fetched_empty fetched = false ->
    feature_engineering (format_columns (reset_index fetched)) = inr df ->
    missing df = [] ->
    dropna features df = inr df' ->
    empty df' = true ->
    exit loaded fetched ([StError ErrNotEnoughData], inl Stopped)
| exit_row (models : Models) (df df' : DataFrame) (e : exn) :
    loaded = inr models ->
    fetched_empty fetched = false ->
    feature_engineering (format_columns (reset_index fetched)) = inr df ->
    missing df = [] ->
    dropna features df = inr df' ->
    empty df' = false ->
    last_row features df' = inl e ->
    exit loaded fetched ([], inl (Uncaught e))
| exit_date (models : Models) (df df' : DataFrame) (v : list fval) (e : exn) :
    loaded = inr models ->
    fetched_empty fetched = false ->
    feature_engineering (format_columns (reset_index fetched)) = inr df ->
    missing df = [] ->
    dropna features df = inr df' ->
    empty df' = false ->
    last_row features df' = inr v ->
    latest_date_of df' = inl e ->
    exit loaded fetched ([], inl (Uncaught e))
| exit_inference (models : Models) (df df' : DataFrame) (v : list fval) (d : R) :
    loaded = inr models ->
    fetched_empty fetched = false ->
    feature_engineering (format_columns (reset_index fetched)) = inr df ->
    missing df = [] ->
    dropna features df = inr df' ->
    empty df' = false ->
    last_row features df' = inr v ->
    latest_date_of df' = inr d ->
    exit loaded fetched
         (bind (make_predictions models v) (decode_and_display d v)).

Definition is_predict (ev : event) : bool :=
  match ev with Predict _ _ => true | _ => false end.

(** Ten days whose index has no name: pandas labels the column [index]. *)
Definition unnamed_index : Fetched :=
  {| index_label := LStr "index";
     index := map Fin one_to_ten;
     data := [(LTuple "Close" [ticker], map Fin one_to_ten);
              (LTuple "High" [ticker], map Fin one_to_ten);
              (LTuple "Low" [ticker], map Fin one_to_ten);
              (LTuple "Open" [ticker], map Fin one_to_ten);
              (LTuple "Volume" [ticker], repeat (Fin 0) 10)] |}.

(** ** Vocabulary of the revised statements *)

(** A close of moderate size: sums and squared deviations of a few such
    values stay far from the binary64 range, so that the running sums of
    the rolling statistics cannot overflow. *)
Definition moderate_limit : Z := Eval vm_compute in (10 ^ 100)%Z.

Definition moderate_bound : R := IZR moderate_limit.

Definition moderate (x : R) : Prop := - moderate_bound <= x <= moderate_bound.


(** A name made of ASCII characters only. *)
Fixpoint ascii_only (s : string) : bool :=
  match s with
  | EmptyString => true
  | String c s' => (nat_of_ascii c <? 128)%nat && ascii_only s'
  end.

(** Ten days whose last open is infinite: present, not zero, not a number. *)
Definition inf_open_day : Fetched :=
  yf_table (map Fin one_to_ten)
           (map Fin [1; 2; 3; 4; 5; 6; 7; 8; 9] ++ [Inf false])
           (map Fin one_to_ten) (map Fin one_to_ten)
           (map Fin one_to_ten) (repeat (Fin 0) 10).

(** * Proofs *)

(** ** Arithmetic on cells *)

Lemma Rzero_true (x : R) : x = 0 -> Rzero x = true.
Proof. intros H. unfold Rzero. destruct (Req_dec_T x 0); [reflexivity | contradiction]. Qed.

Lemma Rzero_false (x : R) : x <> 0 -> Rzero x = false.
Proof. intros H. unfold Rzero. destruct (Req_dec_T x 0); [contradiction | reflexivity]. Qed.

Lemma Rnegative_true (x : R) : x < 0 -> Rnegative x = true.
Proof. intros H. unfold Rnegative. destruct (Rlt_dec x 0); [reflexivity | contradiction]. Qed.

Lemma Rnegative_false (x : R) : 0 <= x -> Rnegative x = false.
Proof. intros H. unfold Rnegative. destruct (Rlt_dec x 0); [lra | reflexivity]. Qed.

Lemma fdiv_fin (x y : R) : y <> 0 -> fdiv (Fin x) (Fin y) = Fin (x / y).
Proof. intros H. simpl. now rewrite (Rzero_false y H). Qed.

Lemma fdiv_by_zero (x : R) : x <> 0 -> fdiv (Fin x) (Fin 0) = Inf (Rnegative x).
Proof.
  intros H. simpl. rewrite (Rzero_true 0 eq_refl). now rewrite (Rzero_false x H).
Qed.

Lemma fdiv_zero_zero : fdiv (Fin 0) (Fin 0) = NaN.
Proof. simpl. now rewrite (Rzero_true 0 eq_refl). Qed.

Lemma fsqrt_fin (x : R) : 0 <= x -> fsqrt (Fin x) = Fin (sqrt x).
Proof. intros H. simpl. now rewrite (Rnegative_false x H). Qed.

Lemma notna_Fin (x : R) : notna (Fin x) = true.
Proof. reflexivity. Qed.

Lemma isna_true (v : fval) : isna v = true <-> v = NaN.
Proof. destruct v; simpl; split; intros H; congruence. Qed.

Lemma notna_false (v : fval) : notna v = false <-> v = NaN.
Proof.
  unfold notna. rewrite negb_false_iff. apply isna_true.
Qed.

Lemma fmean_5 (a b c d e : R) :
  fmean [Fin a; Fin b; Fin c; Fin d; Fin e] = Fin ((a + b + c + d + e) / 5).
Proof.
  unfold fmean, fsum. cbn [fold_left fadd length].
  rewrite fdiv_fin by (simpl; lra).
  f_equal. simpl. field.
Qed.

Lemma fmean_10 (a0 a1 a2 a3 a4 a5 a6 a7 a8 a9 : R) :
  fmean [Fin a0; Fin a1; Fin a2; Fin a3; Fin a4; Fin a5; Fin a6; Fin a7; Fin a8; Fin a9]
  = Fin ((a0 + a1 + a2 + a3 + a4 + a5 + a6 + a7 + a8 + a9) / 10).
Proof.
  unfold fmean, fsum. cbn [fold_left fadd length].
  rewrite fdiv_fin by (simpl; lra).
  f_equal. simpl. field.
Qed.

Lemma fstd_5 (a b c d e : R) :
  let m := (a + b + c + d + e) / 5 in
  fstd [Fin a; Fin b; Fin c; Fin d; Fin e]
  = Fin (sqrt (((a - m) ^ 2 + (b - m) ^ 2 + (c - m) ^ 2 + (d - m) ^ 2 + (e - m) ^ 2) / 4)).
Proof.
  intros m. unfold fstd. rewrite fmean_5. fold m.
  unfold fsum. cbn [map fold_left fadd fsub fmul length Nat.sub].
  rewrite fdiv_fin by (simpl; lra).
  assert (Heq : (0 + (a - m) * (a - m) + (b - m) * (b - m) + (c - m) * (c - m)
                 + (d - m) * (d - m) + (e - m) * (e - m)) / INR 4
                = ((a - m) ^ 2 + (b - m) ^ 2 + (c - m) ^ 2 + (d - m) ^ 2 + (e - m) ^ 2) / 4).
  { simpl. field. }
  rewrite Heq. apply fsqrt_fin.
  apply Rmult_le_pos; [| lra].
  repeat apply Rplus_le_le_0_compat; apply pow2_ge_0.
Qed.

(** ** Rolling windows *)

Lemma skipn_firstn_nth {A} (d : A) (xs : list A) :
  forall a b, (a <= b)%nat -> (b <= length xs)%nat ->
  skipn a (firstn b xs) = map (fun k => nth k xs d) (seq a (b - a)).
Proof.
  induction xs as [| x xs IH]; intros a b Hab Hb.
  - simpl in Hb. assert (b = 0)%nat by lia. assert (a = 0)%nat by lia. subst. reflexivity.
  - destruct b as [| b].
    + assert (a = 0)%nat by lia. subst. reflexivity.
    + destruct a as [| a].
      * simpl. f_equal.
        change (firstn b xs) with (skipn 0 (firstn b xs)).
        rewrite (IH 0%nat b) by (simpl in Hb; lia).
        rewrite Nat.sub_0_r. rewrite <- seq_shift, map_map. reflexivity.
      * simpl. rewrite (IH a b) by (simpl in Hb; lia).
        rewrite <- seq_shift, map_map. reflexivity.
Qed.

Lemma window_nth (w : nat) (xs : Series) (i : nat) :
  (i < length xs)%nat ->
  window w xs i = map (fun k => nth k xs NaN) (seq (S i - w) (S i - (S i - w))).
Proof.
  intros Hi. unfold window. apply skipn_firstn_nth; lia.
Qed.

Lemma window_length_le (w : nat) (xs : Series) (i : nat) :
  (length (window w xs i) <= S i)%nat.
Proof.
  unfold window. rewrite length_skipn, length_firstn. lia.
Qed.

Lemma rolling_length (w : nat) (agg : list fval -> fval) (xs : Series) :
  length (rolling w agg xs) = length xs.
Proof. unfold rolling. now rewrite length_map, length_seq. Qed.

Lemma nth_map_seq {A} (f : nat -> A) (d : A) (n i : nat) :
  (i < n)%nat -> nth i (map f (seq 0 n)) d = f i.
Proof.
  intros Hi.
  rewrite (nth_indep _ d (f 0%nat)) by now rewrite length_map, length_seq.
  rewrite map_nth, seq_nth by assumption. reflexivity.
Qed.

Lemma rolling_nth (w : nat) (agg : list fval -> fval) (xs : Series) (i : nat) :
  (i < length xs)%nat ->
  nth i (rolling w agg xs) NaN =
  let obs := filter observed (window w xs i) in
  if (length obs <? w)%nat then NaN else agg obs.
Proof.
  intros Hi. unfold rolling. now rewrite nth_map_seq.
Qed.

(** Before the window is full the result is NaN, whatever the series. *)
Lemma rolling_not_full (w : nat) (agg : list fval -> fval) (xs : Series) (i : nat) :
  (S i < w)%nat -> nth i (rolling w agg xs) NaN = NaN.
Proof.
  intros Hw. destruct (Nat.lt_ge_cases i (length xs)) as [Hi | Hi].
  - rewrite rolling_nth by assumption. cbv zeta.
    assert (Hlen : (length (filter observed (window w xs i)) <? w)%nat = true).
    { apply Nat.ltb_lt.
      pose proof (filter_length_le observed (window w xs i)).
      pose proof (window_length_le w xs i). lia. }
    now rewrite Hlen.
  - apply nth_overflow. now rewrite rolling_length.
Qed.

Lemma filter_observed_Fin (l : list R) : filter observed (map Fin l) = map Fin l.
Proof. induction l as [| x l IH]; simpl; [reflexivity | now rewrite IH]. Qed.

(** A full window of finite cells: the aggregate sees exactly those cells. *)
Lemma rolling_full (w : nat) (agg : list fval -> fval) (xs : Series)
      (c : nat -> R) (i : nat) :
  (i < length xs)%nat -> (0 < w)%nat -> (w <= S i)%nat ->
  (forall k, (S i - w <= k)%nat -> (k <= i)%nat -> nth k xs NaN = Fin (c k)) ->
  nth i (rolling w agg xs) NaN = agg (map Fin (map c (seq (S i - w) w))).
Proof.
  intros Hi Hw Hfull Hc.
  rewrite rolling_nth by assumption. cbv zeta.
  rewrite window_nth by assumption.
  replace (S i - (S i - w))%nat with w by lia.
  assert (Hwin : map (fun k => nth k xs NaN) (seq (S i - w) w)
                 = map Fin (map c (seq (S i - w) w))).
  { rewrite map_map. apply map_ext_in. intros k Hk.
    apply in_seq in Hk. apply Hc; lia. }
  rewrite Hwin, filter_observed_Fin.
  rewrite !length_map, length_seq, Nat.ltb_irrefl. reflexivity.
Qed.


(** ** Frames *)

Lemma getitem_setitem_same (df : DataFrame) (name : string) (s : Series) :
  getitem (setitem df name s) name = ok s.
Proof.
  induction df as [| [n c] df IH]; simpl.
  - now rewrite String.eqb_refl.
  - destruct (String.eqb n name) eqn:E; simpl; rewrite E; [reflexivity | exact IH].
Qed.

Lemma getitem_setitem_other (df : DataFrame) (name other : string) (s : Series) :
  name <> other -> getitem (setitem df name s) other = getitem df other.
Proof.
  intros Hne. induction df as [| [n c] df IH]; simpl.
  - apply String.eqb_neq in Hne. now rewrite Hne.
  - destruct (String.eqb n name) eqn:E; simpl.
    + apply String.eqb_eq in E. subst n.
      apply String.eqb_neq in Hne. now rewrite Hne.
    + destruct (String.eqb n other); [reflexivity | exact IH].
Qed.

Lemma getitem_length (df : DataFrame) (n : nat) (name : string) (s : Series) :
  uniform df n -> getitem df name = ok s -> length s = n.
Proof.
  intros Hu. induction Hu as [| [m c] df Hc Hu IH]; simpl; intros H.
  - discriminate.
  - destruct (String.eqb m name); [injection H as <-; exact Hc | now apply IH].
Qed.

Lemma setitem_uniform (df : DataFrame) (n : nat) (name : string) (s : Series) :
  uniform df n -> length s = n -> uniform (setitem df name s) n.
Proof.
  intros Hu Hs. induction Hu as [| [m c] df Hc Hu IH]; simpl.
  - repeat constructor. exact Hs.
  - destruct (String.eqb m name); constructor; assumption.
Qed.

Lemma uniform_nrows (df : DataFrame) (n : nat) :
  uniform df n -> df <> [] -> nrows df = n.
Proof.
  intros Hu Hne. destruct Hu as [| c df Hc Hu]; [contradiction | exact Hc].
Qed.

Lemma setitem_not_nil (df : DataFrame) (name : string) (s : Series) :
  setitem df name s <> [].
Proof.
  destruct df as [| [m c] df]; simpl; [discriminate |].
  destruct (String.eqb m name); discriminate.
Qed.

Lemma has_column_getitem (df : DataFrame) (name : string) :
  has_column df name = true <-> exists s, getitem df name = ok s.
Proof.
  unfold has_column, columns. induction df as [| [m c] df IH]; simpl.
  - split; [discriminate | intros [s H]; discriminate].
  - rewrite (String.eqb_sym name m). destruct (String.eqb m name); simpl.
    + split; [intros _; now exists c | reflexivity].
    + exact IH.
Qed.

Lemma getitem_none (df : DataFrame) (name : string) :
  has_column df name = false -> getitem df name = throw (KeyError name).
Proof.
  unfold has_column, columns. induction df as [| [m c] df IH]; simpl.
  - reflexivity.
  - rewrite (String.eqb_sym name m). destruct (String.eqb m name); simpl.
    + discriminate.
    + exact IH.
Qed.

Lemma zip_with_length (f : fval -> fval -> fval) (a b : Series) (n : nat) :
  length a = n -> length b = n -> length (zip_with f a b) = n.
Proof.
  intros Ha Hb. unfold zip_with. rewrite length_map, length_combine. lia.
Qed.

Lemma zip_with_nth (f : fval -> fval -> fval) (a b : Series) (i : nat) :
  length a = length b -> (i < length a)%nat ->
  nth i (zip_with f a b) NaN = f (nth i a NaN) (nth i b NaN).
Proof.
  intros Hab Hi. unfold zip_with.
  rewrite (nth_indep _ NaN ((fun p => f (fst p) (snd p)) (NaN, NaN)))
    by (rewrite length_map, length_combine; lia).
  rewrite (map_nth (fun p => f (fst p) (snd p))), combine_nth by assumption.
  reflexivity.
Qed.

(** ** Feature engineering *)

Ltac get_through :=
  repeat (rewrite getitem_setitem_other by discriminate);
  try rewrite getitem_setitem_same.

(** What lines 39-44 leave in the frame, column by column. *)
Lemma feature_engineering_columns (df : DataFrame) (n : nat)
      (close high low open : Series) :
  uniform df n ->
  getitem df "Close" = ok close -> getitem df "High" = ok high ->
  getitem df "Low" = ok low -> getitem df "Open" = ok open ->
  exists df',
    feature_engineering df = ok df' /\
    uniform df' n /\ nrows df' = n /\
    getitem df' "Open" = ok open /\
    getitem df' "High" = ok high /\
    getitem df' "Low" = ok low /\
    getitem df' "Volume" = getitem df "Volume" /\
    getitem df' "Date" = getitem df "Date" /\
    getitem df' "Sma_5" = ok (rolling_mean 5 close) /\
    getitem df' "Sma_10" = ok (rolling_mean 10 close) /\
    getitem df' "Price_Range" = ok (series_sub high low) /\
    getitem df' "Daily_Change_%"
      = ok (series_mul_scalar (series_div (series_sub close open) open) 100) /\
    getitem df' "Rolling_Std_5" = ok (rolling_std 5 close) /\
    getitem df' "Close/Open" = ok (series_div close open).
Proof.
  intros Hu Hc Hh Hl Ho.
  pose proof (getitem_length _ _ _ _ Hu Hc) as Lc.
  pose proof (getitem_length _ _ _ _ Hu Hh) as Lh.
  pose proof (getitem_length _ _ _ _ Hu Hl) as Ll.
  pose proof (getitem_length _ _ _ _ Hu Ho) as Lo.
  unfold feature_engineering.
  rewrite Hc. cbn [rbind ok].
  get_through. rewrite Hc. cbn [rbind ok].
  get_through. rewrite Hh. cbn [rbind ok].
  get_through. rewrite Hl. cbn [rbind ok].
  get_through. rewrite Hc. cbn [rbind ok].
  get_through. rewrite Ho. cbn [rbind ok].
  get_through. rewrite Hc. cbn [rbind ok].
  get_through. rewrite Hc. cbn [rbind ok].
  get_through. rewrite Ho. cbn [rbind ok].
  eexists. split; [reflexivity |].
  assert (L5 : length (rolling_mean 5 close) = n)
    by (unfold rolling_mean; now rewrite rolling_length).
  assert (L10 : length (rolling_mean 10 close) = n)
    by (unfold rolling_mean; now rewrite rolling_length).
  assert (Ls : length (rolling_std 5 close) = n)
    by (unfold rolling_std; now rewrite rolling_length).
  assert (Lr : length (series_sub high low) = n)
    by now apply zip_with_length.
  assert (Ld : length (series_mul_scalar (series_div (series_sub close open) open) 100) = n).
  { unfold series_mul_scalar. rewrite length_map.
    apply zip_with_length; [now apply zip_with_length | assumption]. }
  assert (Lq : length (series_div close open) = n)
    by now apply zip_with_length.
  split.
  { repeat apply setitem_uniform; assumption. }
  split.
  { apply uniform_nrows; [| apply setitem_not_nil].
    repeat apply setitem_uniform; assumption. }
  repeat split; get_through; try reflexivity; try assumption.
Qed.

Lemma trailing_5 (i : nat) :
  (4 <= i)%nat ->
  seq (S i - 5) 5 = [(i - 4); (i - 3); (i - 2); (i - 1); i]%nat.
Proof.
  intros Hi. replace (S i - 5)%nat with (i - 4)%nat by lia.
  cbn [seq]. repeat f_equal; lia.
Qed.

Lemma trailing_10 (i : nat) :
  (9 <= i)%nat ->
  seq (S i - 10) 10
  = [(i - 9); (i - 8); (i - 7); (i - 6); (i - 5);
     (i - 4); (i - 3); (i - 2); (i - 1); i]%nat.
Proof.
  intros Hi. replace (S i - 10)%nat with (i - 9)%nat by lia.
  cbn [seq]. repeat f_equal; lia.
Qed.

Lemma sma_5_closed_form (xs : Series) (c : nat -> R) (i : nat) :
  (4 <= i < length xs)%nat ->
  (forall k, (i - 4 <= k <= i)%nat -> nth k xs NaN = Fin (c k)) ->
  nth i (rolling_mean 5 xs) NaN = Fin (spec_sma_5 c i).
Proof.
  intros Hi Hc. unfold rolling_mean.
  rewrite (rolling_full 5 fmean xs c i); try lia.
  - rewrite trailing_5 by lia. cbn [map]. apply fmean_5.
  - intros k H1 H2. apply Hc. lia.
Qed.

Lemma sma_10_closed_form (xs : Series) (c : nat -> R) (i : nat) :
  (9 <= i < length xs)%nat ->
  (forall k, (i - 9 <= k <= i)%nat -> nth k xs NaN = Fin (c k)) ->
  nth i (rolling_mean 10 xs) NaN = Fin (spec_sma_10 c i).
Proof.
  intros Hi Hc. unfold rolling_mean.
  rewrite (rolling_full 10 fmean xs c i); try lia.
  - rewrite trailing_10 by lia. cbn [map]. apply fmean_10.
  - intros k H1 H2. apply Hc. lia.
Qed.

Lemma rolling_std_5_closed_form (xs : Series) (c : nat -> R) (i : nat) :
  (4 <= i < length xs)%nat ->
  (forall k, (i - 4 <= k <= i)%nat -> nth k xs NaN = Fin (c k)) ->
  nth i (rolling_std 5 xs) NaN = Fin (spec_rolling_std_5 c i).
Proof.
  intros Hi Hc. unfold rolling_std.
  rewrite (rolling_full 5 fstd xs c i); try lia.
  - rewrite trailing_5 by lia. cbn [map]. apply fstd_5.
  - intros k H1 H2. apply Hc. lia.
Qed.

Lemma cell_of (df : DataFrame) (name : string) (s : Series) (i : nat) :
  getitem df name = ok s -> cell df name i = nth i s NaN.
Proof. intros H. unfold cell. now rewrite H. Qed.

Lemma nth_map_Fin (l : list R) (k : nat) :
  (k < length l)%nat -> nth k (map Fin l) NaN = Fin (nth k l 0).
Proof.
  intros Hk. rewrite (nth_indep _ NaN (Fin 0)) by now rewrite length_map.
  apply map_nth.
Qed.

(** ** Sample tables *)

Lemma yf_table_frame (dates opens highs lows closes volumes : Series) :
  format_columns (reset_index (yf_table dates opens highs lows closes volumes))
  = [("Date"%string, dates); ("Close"%string, closes); ("High"%string, highs);
     ("Low"%string, lows); ("Open"%string, opens); ("Volume"%string, volumes)].
Proof. reflexivity. Qed.

Lemma NoDup_six_names :
  NoDup ["Date"; "Close"; "High"; "Low"; "Open"; "Volume"]%string.
Proof.
  repeat constructor; simpl; intros H;
    repeat (destruct H as [H | H]; [discriminate H |]); exact H.
Qed.

Lemma yf_table_frame_ok (n : nat) (dates opens highs lows closes volumes : Series) :
  length dates = n -> length opens = n -> length highs = n ->
  length lows = n -> length closes = n -> length volumes = n ->
  frame_ok (format_columns (reset_index (yf_table dates opens highs lows closes volumes))).
Proof.
  intros Hd Ho Hh Hl Hc Hv. rewrite yf_table_frame. split.
  - exact NoDup_six_names.
  - unfold uniform. cbn [nrows snd]. repeat constructor; cbn [snd]; congruence.
Qed.

Lemma ten_days_frame_ok : frame_ok ten_days_frame.
Proof. apply (yf_table_frame_ok 10); reflexivity. Qed.

(** ** C1: rolling-window fields *)


Lemma moderate_small (x : R) : -10 <= x <= 10 -> moderate x.
Proof.
  unfold moderate, moderate_bound, moderate_limit. intros H. lra.
Qed.





(** ** Dropping incomplete rows *)

Lemma map_result_getitem (df : DataFrame) (names : list string) :
  (forall f, In f names -> has_column df f = true) ->
  exists cols,
    map_result (getitem df) names = ok cols /\
    length cols = length names /\
    forall k, (k < length names)%nat ->
      getitem df (nth k names ""%string) = ok (nth k cols []).
Proof.
  induction names as [| name names IH]; intros Hall.
  - exists []. repeat split. simpl. intros k Hk. lia.
  - destruct (proj1 (has_column_getitem df name) (Hall name (or_introl eq_refl)))
      as [s Hs].
    destruct IH as (cols & Hcols & Hlen & Hnth).
    { intros f Hf. apply Hall. now right. }
    exists (s :: cols). cbn [map_result]. rewrite Hs, Hcols. cbn [rbind ok].
    repeat split.
    + simpl. now rewrite Hlen.
    + intros [| k] Hk; [exact Hs | apply Hnth; simpl in Hk; lia].
Qed.

Lemma complete_rows_complete (df : DataFrame) (names : list string)
      (cols : list Series) (n : nat) :
  length cols = length names ->
  (forall k, (k < length names)%nat ->
     getitem df (nth k names ""%string) = ok (nth k cols [])) ->
  complete_rows cols n = map (complete df names) (seq 0 n).
Proof.
  intros Hlen Hnth. unfold complete_rows, complete. apply map_ext. intros i.
  revert cols Hlen Hnth. induction names as [| name names IH];
    intros [| s cols] Hlen Hnth; try discriminate.
  - reflexivity.
  - simpl. rewrite (cell_of df name s i (Hnth 0%nat ltac:(simpl; lia))).
    f_equal. apply IH; [simpl in Hlen; lia |].
    intros k Hk. apply (Hnth (S k)). simpl. lia.
Qed.

Lemma getitem_map_columns (g : Series -> Series) (df : DataFrame) (name : string) :
  getitem (map (fun c => (fst c, g (snd c))) df) name
  = match getitem df name with
    | inr s => ok (g s)
    | inl e => inl e
    end.
Proof.
  induction df as [| [m c] df IH]; simpl.
  - reflexivity.
  - destruct (String.eqb m name); [reflexivity | exact IH].
Qed.

Lemma select_filter_seq {A} (p : nat -> bool) (d : A) (s : list A) :
  forall a,
  select (map p (seq a (length s))) s
  = map (fun i => nth (i - a) s d) (filter p (seq a (length s))).
Proof.
  unfold select. induction s as [| x s IH]; intros a.
  - reflexivity.
  - cbn [length seq map combine filter fst]. destruct (p a).
    + cbn [map snd]. rewrite Nat.sub_diag. cbn [nth]. f_equal.
      rewrite IH. apply map_ext_in. intros i Hi.
      apply filter_In in Hi. destruct Hi as [Hi _]. apply in_seq in Hi.
      replace (i - a)%nat with (S (i - S a)) by lia. reflexivity.
    + rewrite IH. apply map_ext_in. intros i Hi.
      apply filter_In in Hi. destruct Hi as [Hi _]. apply in_seq in Hi.
      replace (i - a)%nat with (S (i - S a)) by lia. reflexivity.
Qed.

(** [dropna] keeps, in every column, the cells of the complete rows and
    nothing else, in their order. *)
Lemma dropna_rows (df : DataFrame) (names : list string) :
  uniform df (nrows df) ->
  (forall f, In f names -> has_column df f = true) ->
  exists df',
    dropna names df = ok df' /\
    length df' = length df /\
    (forall name s, getitem df name = ok s ->
       getitem df' name = ok (map (fun i => nth i s NaN) (kept_rows df names))) /\
    (forall name, has_column df' name = has_column df name) /\
    (df <> [] -> nrows df' = length (kept_rows df names)).
Proof.
  intros Hu Hall.
  destruct (map_result_getitem df names Hall) as (cols & Hcols & Hlen & Hnth).
  unfold dropna. rewrite Hcols. cbn [rbind ok].
  rewrite (complete_rows_complete df names cols (nrows df) Hlen Hnth).
  eexists. split; [reflexivity |].
  assert (Hsel : forall s, length s = nrows df ->
            select (map (complete df names) (seq 0 (nrows df))) s
            = map (fun i => nth i s NaN) (kept_rows df names)).
  { intros s Hs. unfold kept_rows. rewrite <- Hs.
    rewrite (select_filter_seq (complete df names) NaN s 0).
    apply map_ext. intros i. now rewrite Nat.sub_0_r. }
  split; [apply length_map |].
  split; [| split].
  - intros name s Hs. rewrite getitem_map_columns, Hs. unfold ok.
    rewrite Hsel by (eapply getitem_length; eassumption). reflexivity.
  - intros name. unfold has_column, columns. rewrite map_map. reflexivity.
  - intros Hne. destruct df as [| [m c] df]; [contradiction |].
    cbn [map]. unfold nrows at 1. cbn [snd].
    rewrite Hsel by reflexivity. apply length_map.
Qed.

Lemma last_map {A B} (f : A -> B) (l : list A) (da : A) (db : B) :
  l <> [] -> last (map f l) db = f (last l da).
Proof.
  induction l as [| a l IH]; intros Hne; [contradiction |].
  destruct l as [| b l]; [reflexivity |].
  change (last (map f (b :: l)) db = f (last (b :: l) da)).
  apply IH. discriminate.
Qed.

Lemma last_In {A} (l : list A) (d : A) : l <> [] -> In (last l d) l.
Proof.
  induction l as [| a l IH]; intros Hne; [contradiction |].
  destruct l as [| b l]; [now left | right; apply IH; discriminate].
Qed.

(** The last position that a filter keeps is the greatest one. *)
Lemma filter_seq_last_max (p : nat -> bool) (n : nat) :
  forall a i, In i (filter p (seq a n)) -> (i <= last (filter p (seq a n)) 0)%nat.
Proof.
  induction n as [| n IH]; intros a i Hi; [contradiction |].
  rewrite seq_S, filter_app in *. cbn [filter] in *.
  destruct (p (a + n)%nat) eqn:E.
  - rewrite last_last.
    apply in_app_or in Hi. destruct Hi as [Hi | [<- | []]]; [| lia].
    apply filter_In in Hi. destruct Hi as [Hi _]. apply in_seq in Hi. lia.
  - rewrite app_nil_r in *. now apply IH.
Qed.

Lemma kept_rows_spec (df : DataFrame) (names : list string) (i : nat) :
  In i (kept_rows df names) <-> (i < nrows df)%nat /\ complete df names i = true.
Proof.
  unfold kept_rows. rewrite filter_In, in_seq. intuition lia.
Qed.

Lemma iloc_last_map (f : nat -> fval) (l : list nat) :
  l <> [] -> iloc_last (map f l) = ok (f (last l 0%nat)).
Proof.
  intros Hne. rewrite <- (last_map f l 0%nat NaN Hne).
  destruct l as [| a l]; [contradiction | reflexivity].
Qed.

Lemma last_row_of_columns (df : DataFrame) (g : string -> fval) (names : list string) :
  (forall f, In f names -> exists s, getitem df f = ok s /\ iloc_last s = ok (g f)) ->
  last_row names df = ok (map g names).
Proof.
  unfold last_row. induction names as [| name names IH]; intros H.
  - reflexivity.
  - destruct (H name (or_introl eq_refl)) as (s & Hs & Hl).
    assert (IH' := IH (fun f Hf => H f (or_intror Hf))).
    cbn [map_result]. rewrite Hs. cbn [rbind ok].
    destruct (map_result (getitem df) names) as [e | cols].
    + discriminate IH'.
    + unfold ok, rbind in IH' |- *. cbn [map_result map].
      rewrite Hl. unfold ok, rbind. now rewrite IH'.
Qed.

(** After [dropna], the last row is the complete row of greatest position. *)
Lemma last_row_kept (df df' : DataFrame) (names : list string) :
  (forall f, In f names -> has_column df f = true) ->
  (forall name s, getitem df name = ok s ->
     getitem df' name = ok (map (fun i => nth i s NaN) (kept_rows df names))) ->
  kept_rows df names <> [] ->
  last_row names df' = ok (row df names (last (kept_rows df names) 0%nat)).
Proof.
  intros Hall Hget Hne. unfold row. apply last_row_of_columns.
  intros f Hf.
  destruct (proj1 (has_column_getitem df f) (Hall f Hf)) as [s Hs].
  exists (map (fun i => nth i s NaN) (kept_rows df names)).
  split; [now apply Hget |].
  rewrite (iloc_last_map (fun i => nth i s NaN)) by assumption.
  now rewrite (cell_of df f s _ Hs).
Qed.

Lemma latest_date_kept (df df' : DataFrame) (names : list string) (dates : list R) :
  uniform df (nrows df) ->
  getitem df "Date" = ok (map Fin dates) ->
  (forall name s, getitem df name = ok s ->
     getitem df' name = ok (map (fun i => nth i s NaN) (kept_rows df names))) ->
  kept_rows df names <> [] ->
  latest_date_of df' = ok (nth (last (kept_rows df names) 0%nat) dates 0).
Proof.
  intros Hu Hd Hget Hne. unfold latest_date_of.
  rewrite (Hget _ _ Hd). cbn [rbind ok].
  rewrite (iloc_last_map (fun i => nth i (map Fin dates) NaN)) by assumption.
  cbn [rbind ok].
  pose proof (last_In (kept_rows df names) 0%nat Hne) as Hin.
  apply kept_rows_spec in Hin. destruct Hin as [Hlt _].
  pose proof (getitem_length _ _ _ _ Hu Hd) as Hlen. rewrite length_map in Hlen.
  rewrite nth_map_Fin by lia. reflexivity.
Qed.

Lemma complete_false (df : DataFrame) (names : list string) (i : nat) :
  complete df names i = false <-> exists f, In f names /\ cell df f i = NaN.
Proof.
  unfold complete. split.
  - intros H. induction names as [| name names IH]; [discriminate |].
    cbn [forallb] in H. apply andb_false_iff in H. destruct H as [H | H].
    + exists name. split; [now left | now apply notna_false].
    + destruct (IH H) as (f & Hf & Hc). exists f. split; [now right | exact Hc].
  - intros (f & Hf & Hc). induction names as [| name names IH]; [contradiction |].
    cbn [forallb]. apply andb_false_iff. destruct Hf as [-> | Hf].
    + left. now apply notna_false.
    + right. now apply IH.
Qed.

Lemma empty_after_dropna (df df' : DataFrame) (names : list string) :
  df <> [] -> length df' = length df ->
  nrows df' = length (kept_rows df names) ->
  empty df' = match kept_rows df names with [] => true | _ => false end.
Proof.
  intros Hne Hlen Hrows. unfold empty. rewrite Hlen, Hrows.
  destruct df as [| c df]; [contradiction |]. cbn [length Nat.eqb orb].
  now destruct (kept_rows (c :: df) names).
Qed.

(** ** C4: selecting the latest row *)

(** C4.  On a frame with ascending dates, [dropna] keeps exactly the rows
    that have no missing value in a required field (every column of the
    result is the column of the input read at the kept positions, in
    order), and when a row remains, the latest input and the latest date
    are those of the kept row with the greatest date. *)
Theorem C4_select_latest (df : DataFrame) (dates : list R) :
  frame_ok df ->
  (forall f, In f features -> has_column df f = true) ->
  getitem df "Date" = ok (map Fin dates) ->
  (forall a b, (a < b < length dates)%nat -> nth a dates 0 < nth b dates 0) ->
  exists df',
    dropna features df = ok df' /\
    (forall name s, getitem df name = ok s ->
       getitem df' name
       = ok (map (fun i => nth i s NaN) (kept_rows df features))) /\
    (forall i, (i < nrows df)%nat ->
       (In i (kept_rows df features)
        <-> ~ exists f, In f features /\ cell df f i = NaN)) /\
    (empty df' = false ->
       exists j,
         In j (kept_rows df features) /\
         last_row features df' = ok (row df features j) /\
         latest_date_of df' = ok (nth j dates 0) /\
         forall i, In i (kept_rows df features) -> i <> j ->
                   nth i dates 0 < nth j dates 0).
Proof.
  intros [_ Hu] Hall Hd Hasc.
  destruct (dropna_rows df features Hu Hall)
    as (df' & Hdrop & Hlen & Hget & _ & Hrows).
  exists df'. split; [exact Hdrop |]. split; [exact Hget |]. split.
  - intros i Hi. rewrite kept_rows_spec, <- complete_false.
    destruct (complete df features i); intuition congruence.
  - intros Hne.
    assert (Hdf : df <> []) by (intros ->; discriminate Hd).
    rewrite (empty_after_dropna df df' features Hdf Hlen (Hrows Hdf)) in Hne.
    assert (Hkept : kept_rows df features <> [])
      by (destruct (kept_rows df features); [discriminate | discriminate]).
    exists (last (kept_rows df features) 0%nat).
    split; [now apply last_In |].
    split; [now apply last_row_kept |].
    split; [now apply latest_date_kept |].
    intros i Hi Hij.
    pose proof (filter_seq_last_max (complete df features) (nrows df) 0 i Hi) as Hle.
    fold (kept_rows df features) in Hle.
    pose proof (last_In (kept_rows df features) 0%nat Hkept) as Hj.
    apply kept_rows_spec in Hj. destruct Hj as [Hj _].
    pose proof (getitem_length _ _ _ _ Hu Hd) as Hlend.
    rewrite length_map in Hlend.
    apply Hasc. lia.
Qed.

Lemma three_rows_ok : frame_ok three_rows.
Proof.
  split.
  - repeat constructor; simpl; intros H;
      repeat (destruct H as [H | H]; [discriminate H |]); exact H.
  - unfold uniform. repeat constructor.
Qed.

Lemma three_rows_features :
  forall f, In f features -> has_column three_rows f = true.
Proof.
  intros f Hf. unfold features in Hf. simpl in Hf.
  repeat (destruct Hf as [<- | Hf]; [reflexivity |]). contradiction.
Qed.

Lemma C4_select_latest_witness :
  exists df',
    dropna features three_rows = ok df' /\
    last_row features df' = ok (row three_rows features 1) /\
    latest_date_of df' = ok 2.
Proof.
  assert (Hasc : forall a b, (a < b < length [1; 2; 3])%nat ->
                   nth a [1; 2; 3] 0 < nth b [1; 2; 3] 0).
  { intros a b Hab. simpl in Hab.
    destruct a as [| [| a]]; destruct b as [| [| [| b]]]; simpl; try lia; lra. }
  destruct (C4_select_latest three_rows [1; 2; 3]
              three_rows_ok three_rows_features eq_refl Hasc)
    as (df' & Hdrop & _ & _ & Hlast).
  exists df'. split; [exact Hdrop |].
  assert (Hne : empty df' = false).
  { assert (Hc : dropna features three_rows
                 = ok (map (fun c => (fst c, [nth 1 (snd c) NaN])) three_rows))
      by reflexivity.
    rewrite Hc in Hdrop. injection Hdrop as <-. reflexivity. }
  destruct (Hlast Hne) as (j & Hj & Hrow & Hdate & _).
  assert (Hk : kept_rows three_rows features = [1%nat]) by reflexivity.
  rewrite Hk in Hj. destruct Hj as [<- | []].
  split; [exact Hrow | exact Hdate].
Defined.

(** ** Running the script *)

Lemma no_missing_cols (df : DataFrame) :
  (forall f, In f features -> has_column df f = true) ->
  filter (fun col => negb (has_column df col)) features = [].
Proof.
  intros H. unfold features. cbn [filter].
  rewrite !H by (unfold features; simpl; tauto). reflexivity.
Qed.

Lemma app_selects (models : Models) (fetched : Fetched)
      (latest_input : list fval) (latest_date : R) :
  selects fetched latest_input latest_date ->
  app (ok models) fetched
  = bind (make_predictions models latest_input)
         (decode_and_display latest_date latest_input).
Proof.
  intros (Hne & df & df' & Hfe & Hcols & Hdrop & Hemp & Hrow & Hdate).
  unfold app. cbn [lift ok try_except bind]. rewrite Hne.
  rewrite Hfe. cbn [lift ok bind].
  rewrite (no_missing_cols df Hcols). cbn [length Nat.eqb negb].
  rewrite Hdrop. cbn [lift ok bind]. rewrite Hemp.
  rewrite Hrow. cbn [lift ok bind]. rewrite Hdate. cbn [lift ok bind].
  destruct (make_predictions models latest_input) as [t [h | p]]; cbn [bind app].
  - reflexivity.
  - destruct (decode_and_display latest_date latest_input p). reflexivity.
Qed.

Lemma make_predictions_cases (models : Models) (v : list fval) :
  make_predictions models v =
  match output (reg_model models) v with
  | inl e => ([Predict RegModel [v]; StError (ErrPrediction e)], inl Stopped)
  | inr pred_close =>
      match output (clf_model models) v with
      | inl e =>
          ([Predict RegModel [v]; Predict ClfModel [v];
            StError (ErrPrediction e)], inl Stopped)
      | inr pred_direction =>
          match output (signal_model models) v with
          | inl e =>
              ([Predict RegModel [v]; Predict ClfModel [v];
                Predict SignalModel [v]; StError (ErrPrediction e)], inl Stopped)
          | inr pred_signal =>
              ([Predict RegModel [v]; Predict ClfModel [v];
                Predict SignalModel [v]],
               inr (pred_close, pred_direction, pred_signal))
          end
      end
  end.
Proof.
  unfold make_predictions, predictions, call_predict, output.
  destruct (reg_model models [v]) as [e | [| pc b1]]; try reflexivity.
  destruct (clf_model models [v]) as [e | [| pd b2]]; try reflexivity.
  destruct (signal_model models [v]) as [e | [| ps b3]]; reflexivity.
Qed.

(** ** The engineered rows of a table with finite prices *)

Lemma series_mul_scalar_nth (s : Series) (k : R) (i : nat) :
  nth i (series_mul_scalar s k) NaN = fmul (nth i s NaN) (Fin k).
Proof.
  unfold series_mul_scalar.
  change NaN with ((fun v => fmul v (Fin k)) NaN) at 1.
  apply map_nth.
Qed.

Lemma engineered_rows (df0 : DataFrame) (n : nat) (dates volumes : Series)
      (opens highs lows closes : list R) :
  uniform df0 n ->
  getitem df0 "Date" = ok dates ->
  getitem df0 "Close" = ok (map Fin closes) ->
  getitem df0 "High" = ok (map Fin highs) ->
  getitem df0 "Low" = ok (map Fin lows) ->
  getitem df0 "Open" = ok (map Fin opens) ->
  getitem df0 "Volume" = ok volumes ->
  exists df,
    feature_engineering df0 = ok df /\
    uniform df n /\ nrows df = n /\
    getitem df "Date" = ok dates /\
    (forall f, In f features -> has_column df f = true) /\
    forall i, (i < n)%nat ->
      row df features i
      = [Fin (nth i opens 0); Fin (nth i highs 0); Fin (nth i lows 0);
         nth i volumes NaN;
         nth i (rolling_mean 5 (map Fin closes)) NaN;
         nth i (rolling_mean 10 (map Fin closes)) NaN;
         Fin (nth i highs 0 - nth i lows 0);
         daily_change_pct (Fin (nth i closes 0)) (Fin (nth i opens 0));
         nth i (rolling_std 5 (map Fin closes)) NaN;
         close_over_open (Fin (nth i closes 0)) (Fin (nth i opens 0))].
Proof.
  intros Hu Hd Hc Hh Hl Ho Hv.
  destruct (feature_engineering_columns df0 n _ _ _ _ Hu Hc Hh Hl Ho)
    as (df & Hfe & Hu' & Hn & Go & Gh & Gl & Gv & Gd & G5 & G10 & Gr & Gp & Gs & Gq).
  rewrite Hv in Gv. rewrite Hd in Gd.
  pose proof (getitem_length _ _ _ _ Hu Hc) as Lc. rewrite length_map in Lc.
  pose proof (getitem_length _ _ _ _ Hu Hh) as Lh. rewrite length_map in Lh.
  pose proof (getitem_length _ _ _ _ Hu Hl) as Ll. rewrite length_map in Ll.
  pose proof (getitem_length _ _ _ _ Hu Ho) as Lo. rewrite length_map in Lo.
  exists df. repeat (split; [assumption |]). split.
  - intros f Hf. apply has_column_getitem. unfold features in Hf. simpl in Hf.
    repeat (destruct Hf as [<- | Hf]; [eexists; eassumption |]). contradiction.
  - intros i Hi. unfold row, features. cbn [map].
    rewrite (cell_of _ _ _ i Go), (cell_of _ _ _ i Gh), (cell_of _ _ _ i Gl),
      (cell_of _ _ _ i Gv), (cell_of _ _ _ i G5), (cell_of _ _ _ i G10),
      (cell_of _ _ _ i Gr), (cell_of _ _ _ i Gp), (cell_of _ _ _ i Gs),
      (cell_of _ _ _ i Gq).
    rewrite series_mul_scalar_nth.
    unfold series_sub, series_div.
    rewrite !zip_with_nth;
      rewrite ?(zip_with_length fsub _ _ n), ?length_map; try lia.
    rewrite !nth_map_Fin by lia.
    reflexivity.
    all: rewrite length_map; assumption.
Qed.

Lemma complete_row (df : DataFrame) (names : list string) (i : nat) :
  complete df names i = forallb notna (row df names i).
Proof.
  unfold complete, row. induction names as [| name names IH]; simpl.
  - reflexivity.
  - now rewrite IH.
Qed.

Lemma daily_change_pct_fin (c o : R) :
  o <> 0 -> daily_change_pct (Fin c) (Fin o) = Fin ((c - o) / o * 100).
Proof.
  intros H. unfold daily_change_pct. cbn [fsub]. now rewrite fdiv_fin.
Qed.

Lemma close_over_open_fin (c o : R) :
  o <> 0 -> close_over_open (Fin c) (Fin o) = Fin (c / o).
Proof. intros H. unfold close_over_open. now apply fdiv_fin. Qed.

(** A zero open under a nonzero close: both features are infinite, with
    the sign of the close. *)
Lemma daily_change_pct_zero_open (c : R) :
  c <> 0 -> daily_change_pct (Fin c) (Fin 0) = Inf (Rnegative c).
Proof.
  intros H. unfold daily_change_pct. cbn [fsub].
  rewrite fdiv_by_zero by lra. cbn [fmul].
  rewrite Rzero_false by lra. rewrite (Rnegative_false 100) by lra.
  rewrite xorb_false_r. f_equal. f_equal. lra.
Qed.

Lemma close_over_open_zero_open (c : R) :
  c <> 0 -> close_over_open (Fin c) (Fin 0) = Inf (Rnegative c).
Proof. intros H. unfold close_over_open. now apply fdiv_by_zero. Qed.

Lemma daily_change_pct_zero_zero : daily_change_pct (Fin 0) (Fin 0) = NaN.
Proof.
  unfold daily_change_pct. cbn [fsub]. rewrite Rminus_diag.
  now rewrite fdiv_zero_zero.
Qed.

Lemma close_over_open_zero_zero : close_over_open (Fin 0) (Fin 0) = NaN.
Proof. exact fdiv_zero_zero. Qed.

Lemma division_features_notna (c o : R) :
  ~ (o = 0 /\ c = 0) ->
  notna (daily_change_pct (Fin c) (Fin o)) = true /\
  notna (close_over_open (Fin c) (Fin o)) = true.
Proof.
  intros H. destruct (Req_dec_T o 0) as [-> | Ho].
  - assert (Hc : c <> 0) by (intros ->; apply H; now split).
    now rewrite daily_change_pct_zero_open, close_over_open_zero_open.
  - now rewrite daily_change_pct_fin, close_over_open_fin.
Qed.

Lemma filter_none {A} (p : A -> bool) (l : list A) :
  (forall x, In x l -> p x = false) -> filter p l = [].
Proof.
  induction l as [| a l IH]; intros H; simpl; [reflexivity |].
  rewrite (H a) by now left. apply IH. intros x Hx. apply H. now right.
Qed.

Lemma filter_all {A} (p : A -> bool) (l : list A) :
  (forall x, In x l -> p x = true) -> filter p l = l.
Proof.
  induction l as [| a l IH]; intros H; simpl; [reflexivity |].
  rewrite (H a) by now left. f_equal. apply IH. intros x Hx. apply H. now right.
Qed.

Lemma filter_seq_from (p : nat -> bool) (k n : nat) :
  (k <= n)%nat ->
  (forall i, (i < k)%nat -> p i = false) ->
  (forall i, (k <= i < n)%nat -> p i = true) ->
  filter p (seq 0 n) = seq k (n - k).
Proof.
  intros Hkn Hlo Hhi.
  replace n with (k + (n - k))%nat at 1 by lia.
  rewrite seq_app, filter_app. cbn [Nat.add].
  rewrite filter_none, filter_all; [reflexivity | |].
  - intros i Hi. apply in_seq in Hi. apply Hhi. lia.
  - intros i Hi. apply in_seq in Hi. apply Hlo. lia.
Qed.

Lemma last_seq (a m : nat) : last (seq a (S m)) 0%nat = (a + m)%nat.
Proof. rewrite seq_S. apply last_last. Qed.

Lemma well_formed_uniform (fetched : Fetched) :
  well_formed fetched ->
  uniform (format_columns (reset_index fetched)) (length (index fetched)).
Proof.
  intros [_ Hlen]. unfold uniform, format_columns, reset_index.
  cbn [map]. constructor; [reflexivity |].
  apply Forall_map. cbn [snd]. exact Hlen.
Qed.

Lemma well_formed_frame_ok (fetched : Fetched) :
  well_formed fetched -> frame_ok (format_columns (reset_index fetched)).
Proof.
  intros H. split; [apply H |].
  apply well_formed_uniform. exact H.
Qed.

Lemma two_columns_data (fetched : Fetched) (a b : Series) :
  getitem (format_columns (reset_index fetched)) "Close" = ok a ->
  getitem (format_columns (reset_index fetched)) "High" = ok b ->
  data fetched <> [].
Proof.
  unfold format_columns, reset_index. intros Ha Hb Hnil. rewrite Hnil in *.
  cbn [map getitem fst snd] in Ha, Hb.
  destruct (String.eqb (format_label (index_label fetched)) "Close") eqn:E1;
    [| discriminate].
  destruct (String.eqb (format_label (index_label fetched)) "High") eqn:E2;
    [| discriminate].
  apply String.eqb_eq in E1, E2. congruence.
Qed.

(** The rows of a table of at least ten days whose prices are numbers and
    in which no row has both a zero open and a zero close: the filter drops
    the first nine and the last row is selected. *)
Lemma finite_table_rows (fetched : Fetched) (n : nat)
      (dates opens highs lows closes volumes : list R) :
  well_formed fetched ->
  length (index fetched) = n -> (10 <= n)%nat ->
  getitem (format_columns (reset_index fetched)) "Date" = ok (map Fin dates) ->
  getitem (format_columns (reset_index fetched)) "Close" = ok (map Fin closes) ->
  getitem (format_columns (reset_index fetched)) "High" = ok (map Fin highs) ->
  getitem (format_columns (reset_index fetched)) "Low" = ok (map Fin lows) ->
  getitem (format_columns (reset_index fetched)) "Open" = ok (map Fin opens) ->
  getitem (format_columns (reset_index fetched)) "Volume" = ok (map Fin volumes) ->
  (forall i, (i < n)%nat -> ~ (nth i opens 0 = 0 /\ nth i closes 0 = 0)) ->
  fetched_empty fetched = false /\
  exists df df',
    feature_engineering (format_columns (reset_index fetched)) = ok df /\
    (forall f, In f features -> has_column df f = true) /\
    dropna features df = ok df' /\
    kept_rows df features = seq 9 (n - 9) /\
    nrows df' = (n - 9)%nat /\
    empty df' = false /\
    last_row features df' = ok (row df features (n - 1)) /\
    latest_date_of df' = ok (nth (n - 1) dates 0) /\
    row df features (n - 1)
    = [Fin (nth (n - 1) opens 0); Fin (nth (n - 1) highs 0);
       Fin (nth (n - 1) lows 0); Fin (nth (n - 1) volumes 0);
       Fin (spec_sma_5 (fun k => nth k closes 0) (n - 1));
       Fin (spec_sma_10 (fun k => nth k closes 0) (n - 1));
       Fin (nth (n - 1) highs 0 - nth (n - 1) lows 0);
       daily_change_pct (Fin (nth (n - 1) closes 0)) (Fin (nth (n - 1) opens 0));
       Fin (spec_rolling_std_5 (fun k => nth k closes 0) (n - 1));
       close_over_open (Fin (nth (n - 1) closes 0)) (Fin (nth (n - 1) opens 0))].
Proof.
  intros Hwf Hn Hten Hd Hc Hh Hl Ho Hv Hdiv.
  pose proof (well_formed_uniform fetched Hwf) as Hu. rewrite Hn in Hu.
  pose proof (getitem_length _ _ _ _ Hu Hc) as Lc. rewrite length_map in Lc.
  pose proof (getitem_length _ _ _ _ Hu Hv) as Lv. rewrite length_map in Lv.
  split.
  { unfold fetched_empty. rewrite Hn.
    pose proof (two_columns_data fetched _ _ Hc Hh) as Hdata.
    destruct (data fetched); [contradiction |].
    destruct n; [lia | reflexivity]. }
  destruct (engineered_rows _ n _ _ _ _ _ _ Hu Hd Hc Hh Hl Ho Hv)
    as (df & Hfe & Hu' & Hrows & Gd & Hcols & Hrow).
  rewrite <- Hrows in Hu'.
  destruct (dropna_rows df features Hu' Hcols)
    as (df' & Hdrop & Hlen & Hget & _ & Hnr).
  assert (Hdf : df <> []) by (intros ->; discriminate Gd).
  assert (Hfin : forall i k, (k <= i)%nat -> (i < n)%nat ->
            nth k (map Fin closes) NaN = Fin (nth k closes 0)).
  { intros i k Hk Hi. apply nth_map_Fin. lia. }
  assert (Hkept : kept_rows df features = seq 9 (n - 9)).
  { unfold kept_rows. rewrite Hrows. apply filter_seq_from; [lia | |].
    - intros i Hi. rewrite complete_row, Hrow by lia. cbn [forallb].
      unfold rolling_mean at 2. rewrite (rolling_not_full 10) by lia.
      cbn [notna isna negb].
      now rewrite !andb_false_r.
    - intros i Hi. rewrite complete_row, Hrow by lia. cbn [forallb].
      rewrite (sma_5_closed_form _ (fun k => nth k closes 0) i);
        [| rewrite length_map; lia | intros k Hk; apply (Hfin i); lia].
      rewrite (sma_10_closed_form _ (fun k => nth k closes 0) i);
        [| rewrite length_map; lia | intros k Hk; apply (Hfin i); lia].
      rewrite (rolling_std_5_closed_form _ (fun k => nth k closes 0) i);
        [| rewrite length_map; lia | intros k Hk; apply (Hfin i); lia].
      rewrite nth_map_Fin by lia.
      destruct (division_features_notna (nth i closes 0) (nth i opens 0)) as [H1 H2];
        [apply Hdiv; lia |].
      rewrite H1, H2. reflexivity. }
  assert (Hlast : last (kept_rows df features) 0%nat = (n - 1)%nat).
  { rewrite Hkept. replace (n - 9)%nat with (S (n - 10)) by lia.
    rewrite last_seq. lia. }
  assert (Hne : kept_rows df features <> []).
  { rewrite Hkept. replace (n - 9)%nat with (S (n - 10)) by lia. discriminate. }
  exists df, df'. split; [exact Hfe |]. split; [exact Hcols |].
  split; [exact Hdrop |]. split; [exact Hkept |].
  split; [rewrite (Hnr Hdf), Hkept; apply length_seq |].
  split.
  { rewrite (empty_after_dropna df df' features Hdf Hlen (Hnr Hdf)).
    destruct (kept_rows df features); [contradiction | reflexivity]. }
  split; [rewrite <- Hlast; now apply last_row_kept |].
  split; [rewrite <- Hlast; now apply (latest_date_kept df df' features dates) |].
  rewrite Hrow by lia.
  rewrite (sma_5_closed_form _ (fun k => nth k closes 0) (n - 1));
    [| rewrite length_map; lia | intros k Hk; apply (Hfin (n - 1)%nat); lia].
  rewrite (sma_10_closed_form _ (fun k => nth k closes 0) (n - 1));
    [| rewrite length_map; lia | intros k Hk; apply (Hfin (n - 1)%nat); lia].
  rewrite (rolling_std_5_closed_form _ (fun k => nth k closes 0) (n - 1));
    [| rewrite length_map; lia | intros k Hk; apply (Hfin (n - 1)%nat); lia].
  rewrite nth_map_Fin by lia. reflexivity.
Qed.

Lemma division_cells (df0 df : DataFrame) (n : nat) (close open : Series) (i : nat) :
  uniform df0 n ->
  getitem df0 "Close" = ok close -> getitem df0 "Open" = ok open ->
  getitem df "Daily_Change_%"
    = ok (series_mul_scalar (series_div (series_sub close open) open) 100) ->
  getitem df "Close/Open" = ok (series_div close open) ->
  (i < n)%nat ->
  cell df "Daily_Change_%" i = daily_change_pct (nth i close NaN) (nth i open NaN) /\
  cell df "Close/Open" i = close_over_open (nth i close NaN) (nth i open NaN).
Proof.
  intros Hu Hc Ho Gp Gq Hi.
  pose proof (getitem_length _ _ _ _ Hu Hc) as Lc.
  pose proof (getitem_length _ _ _ _ Hu Ho) as Lo.
  rewrite (cell_of _ _ _ i Gp), (cell_of _ _ _ i Gq).
  rewrite series_mul_scalar_nth. unfold series_sub, series_div.
  rewrite !zip_with_nth; rewrite ?(zip_with_length fsub _ _ n); try lia.
  split; reflexivity.
Qed.

(** ** C10: the first nine rows *)

(** C10, as the code has it.  For a table of [n >= 10] days whose raw
    fields are all finite numbers, whose opens are nonzero and whose closes
    are of moderate size, the filter keeps exactly the positions
    [9 .. n-1], so [n - 9] rows remain, and the selected row and date are
    those of the last day of the input: its open, high, low and volume are
    the last ones of the table, and none of its ten cells is NaN. *)
Theorem C10_first_nine_removed (fetched : Fetched) (n : nat)
      (dates opens highs lows closes volumes : list R) :
  well_formed fetched ->
  length (index fetched) = n -> (10 <= n)%nat ->
  getitem (format_columns (reset_index fetched)) "Date" = ok (map Fin dates) ->
  getitem (format_columns (reset_index fetched)) "Close" = ok (map Fin closes) ->
  getitem (format_columns (reset_index fetched)) "High" = ok (map Fin highs) ->
  getitem (format_columns (reset_index fetched)) "Low" = ok (map Fin lows) ->
  getitem (format_columns (reset_index fetched)) "Open" = ok (map Fin opens) ->
  getitem (format_columns (reset_index fetched)) "Volume" = ok (map Fin volumes) ->
  (forall i, (i < n)%nat -> nth i opens 0 <> 0) ->
  (forall i, (i < n)%nat -> moderate (nth i closes 0)) ->
  exists df df',
    feature_engineering (format_columns (reset_index fetched)) = ok df /\
    dropna features df = ok df' /\
    kept_rows df features = seq 9 (n - 9) /\
    nrows df' = (n - 9)%nat /\
    latest_date_of df' = ok (nth (n - 1) dates 0) /\
    last_row features df' = ok (row df features (n - 1)) /\
    cell df "Open" (n - 1) = Fin (nth (n - 1) opens 0) /\
    cell df "High" (n - 1) = Fin (nth (n - 1) highs 0) /\
    cell df "Low" (n - 1) = Fin (nth (n - 1) lows 0) /\
    cell df "Volume" (n - 1) = Fin (nth (n - 1) volumes 0) /\
    Forall (fun c => c <> NaN) (row df features (n - 1)).
Proof.
  intros Hwf Hn Hten Hd Hc Hh Hl Ho Hv Hopen _.
  destruct (finite_table_rows fetched n dates opens highs lows closes volumes
              Hwf Hn Hten Hd Hc Hh Hl Ho Hv)
    as (_ & df & df' & Hfe & _ & Hdrop & Hkept & Hrows & _ & Hlast & Hdate & Hrow).
  { intros i Hi [H0 _]. exact (Hopen i Hi H0). }
  exists df, df'.
  split; [exact Hfe |]. split; [exact Hdrop |]. split; [exact Hkept |].
  split; [exact Hrows |]. split; [exact Hdate |]. split; [exact Hlast |].
  assert (Hraw := Hrow). unfold row, features in Hraw. cbn [map] in Hraw.
  injection Hraw as Eo Eh El Ev _.
  split; [exact Eo |]. split; [exact Eh |]. split; [exact El |].
  split; [exact Ev |].
  assert (Hin : In (n - 1)%nat (kept_rows df features))
    by (rewrite Hkept; apply in_seq; lia).
  apply kept_rows_spec in Hin. destruct Hin as [_ Hcomp].
  rewrite complete_row, forallb_forall in Hcomp.
  apply Forall_forall. intros c Hc' Hnan. specialize (Hcomp c Hc').
  rewrite Hnan in Hcomp. discriminate.
Qed.

Lemma ten_days_well_formed : well_formed ten_days.
Proof.
  split.
  - exact NoDup_six_names.
  - repeat constructor.
Qed.

Lemma C10_first_nine_removed_witness :
  exists df df',
    feature_engineering (format_columns (reset_index ten_days)) = ok df /\
    dropna features df = ok df' /\
    kept_rows df features = [9%nat] /\
    nrows df' = 1%nat /\
    latest_date_of df' = ok 10 /\
    cell df "Open" 9 = Fin 10.
Proof.
  destruct (C10_first_nine_removed ten_days 10
              one_to_ten one_to_ten one_to_ten one_to_ten one_to_ten
              (repeat 0 10)
              ten_days_well_formed eq_refl (Nat.le_refl 10)
              eq_refl eq_refl eq_refl eq_refl eq_refl eq_refl)
    as (df & df' & Hfe & Hdrop & Hkept & Hrows & Hdate & _ & Hopen & _).
  { intros i Hi. do 10 (destruct i as [| i]; [simpl; lra |]). lia. }
  { intros i Hi. apply moderate_small.
    do 10 (destruct i as [| i]; [simpl; lra |]). lia. }
  exists df, df'. repeat (split; [assumption |]). exact Hopen.
Defined.

Lemma inf_open_day_well_formed : well_formed inf_open_day.
Proof. split; [exact NoDup_six_names | repeat constructor]. Qed.

(** C10 as stated fails: in this table of ten days every raw field is
    present and no open is zero, but the last open is infinite.  The daily
    change of the last row is then NaN, the filter drops that row as well,
    and the rows kept are not the positions [9 .. n-1]. *)
Lemma C10_counterexample :
  well_formed inf_open_day /\
  length (index inf_open_day) = 10%nat /\
  Forall (fun c => Forall (fun v => isna v = false) (snd c))
         (format_columns (reset_index inf_open_day)) /\
  (exists opens,
     getitem (format_columns (reset_index inf_open_day)) "Open" = ok opens /\
     Forall (fun v => v <> Fin 0) opens) /\
  exists df,
    feature_engineering (format_columns (reset_index inf_open_day)) = ok df /\
    cell df "Daily_Change_%" 9 = NaN /\
    ~ In 9%nat (kept_rows df features) /\
    kept_rows df features <> seq 9 (10 - 9).
Proof.
  split; [exact inf_open_day_well_formed |]. split; [reflexivity |].
  split; [repeat constructor |].
  split.
  { eexists. split; [reflexivity |].
    repeat constructor; intros H; try discriminate H; injection H; lra. }
  pose proof (well_formed_uniform _ inf_open_day_well_formed) as Hu.
  destruct (feature_engineering_columns
              (format_columns (reset_index inf_open_day)) _
              (map Fin one_to_ten) (map Fin one_to_ten) (map Fin one_to_ten)
              (map Fin [1; 2; 3; 4; 5; 6; 7; 8; 9] ++ [Inf false])
              Hu eq_refl eq_refl eq_refl eq_refl)
    as (df & Hfe & _ & _ & _ & _ & _ & _ & _ & _ & _ & _ & Gp & _ & Gq).
  destruct (division_cells _ df _ _ _ 9 Hu eq_refl eq_refl Gp Gq) as [Hp _].
  { simpl. lia. }
  assert (Hnan : cell df "Daily_Change_%" 9 = NaN) by (rewrite Hp; reflexivity).
  assert (Hout : ~ In 9%nat (kept_rows df features)).
  { intros Hin. apply kept_rows_spec in Hin. destruct Hin as [_ Hcomp].
    assert (Hfalse : complete df features 9 = false).
    { apply complete_false. exists "Daily_Change_%"%string. split; [| exact Hnan].
      unfold features. simpl. tauto. }
    congruence. }
  exists df. split; [exact Hfe |]. split; [exact Hnan |]. split; [exact Hout |].
  intros Heq. apply Hout. rewrite Heq. now left.
Qed.

(** ** C5 and C3: too little data, and zero opens *)

Lemma app_fetch_error (models : Models) (fetched : Fetched) :
  fetched_empty fetched = true ->
  app (ok models) fetched = ([StError ErrFetch], inl Stopped).
Proof.
  intros H. unfold app. cbn [lift ok try_except bind]. now rewrite H.
Qed.

Lemma app_not_enough_data (models : Models) (fetched : Fetched)
      (df df' : DataFrame) :
  fetched_empty fetched = false ->
  feature_engineering (format_columns (reset_index fetched)) = ok df ->
  (forall f, In f features -> has_column df f = true) ->
  dropna features df = ok df' ->
  empty df' = true ->
  app (ok models) fetched = ([StError ErrNotEnoughData], inl Stopped).
Proof.
  intros Hne Hfe Hcols Hdrop Hemp.
  unfold app. cbn [lift ok try_except bind]. rewrite Hne.
  rewrite Hfe. cbn [lift ok bind].
  rewrite (no_missing_cols df Hcols). cbn [length Nat.eqb negb].
  rewrite Hdrop. cbn [lift ok bind]. rewrite Hemp. reflexivity.
Qed.

(** With the raw columns in place, feature engineering succeeds and the
    frame has every feature. *)
Lemma engineered_has_features (df0 : DataFrame) (n : nat) :
  uniform df0 n ->
  has_column df0 "Close" = true -> has_column df0 "High" = true ->
  has_column df0 "Low" = true -> has_column df0 "Open" = true ->
  has_column df0 "Volume" = true ->
  exists df close,
    getitem df0 "Close" = ok close /\
    feature_engineering df0 = ok df /\
    uniform df n /\ nrows df = n /\
    (forall f, In f features -> has_column df f = true) /\
    getitem df "Sma_10" = ok (rolling_mean 10 close).
Proof.
  intros Hu Hc Hh Hl Ho Hv.
  apply has_column_getitem in Hc, Hh, Hl, Ho, Hv.
  destruct Hc as [close Hc], Hh as [high Hh], Hl as [low Hl],
           Ho as [open Ho], Hv as [volume Hv].
  destruct (feature_engineering_columns df0 n _ _ _ _ Hu Hc Hh Hl Ho)
    as (df & Hfe & Hu' & Hn & Go & Gh & Gl & Gv & Gd & G5 & G10 & Gr & Gp & Gs & Gq).
  rewrite Hv in Gv.
  exists df, close. repeat (split; [assumption |]). split; [| exact G10].
  intros f Hf. apply has_column_getitem. unfold features in Hf. simpl in Hf.
  repeat (destruct Hf as [<- | Hf]; [eexists; eassumption |]). contradiction.
Qed.

(** Fewer than ten rows: no row is complete. *)
Lemma short_series_no_rows (models : Models) (fetched : Fetched) :
  well_formed fetched ->
  fetched_empty fetched = false ->
  has_column (format_columns (reset_index fetched)) "Close" = true ->
  has_column (format_columns (reset_index fetched)) "High" = true ->
  has_column (format_columns (reset_index fetched)) "Low" = true ->
  has_column (format_columns (reset_index fetched)) "Open" = true ->
  has_column (format_columns (reset_index fetched)) "Volume" = true ->
  (length (index fetched) < 10)%nat ->
  app (ok models) fetched = ([StError ErrNotEnoughData], inl Stopped).
Proof.
  intros Hwf Hne Hc Hh Hl Ho Hv Hshort.
  pose proof (well_formed_uniform fetched Hwf) as Hu.
  destruct (engineered_has_features _ _ Hu Hc Hh Hl Ho Hv)
    as (df & close & _ & Hfe & Hu' & Hn & Hcols & G10).
  rewrite <- Hn in Hu'.
  destruct (dropna_rows df features Hu' Hcols)
    as (df' & Hdrop & Hlen & _ & _ & Hnr).
  assert (Hdf : df <> []) by (intros ->; discriminate G10).
  apply (app_not_enough_data models fetched df df' Hne Hfe Hcols Hdrop).
  rewrite (empty_after_dropna df df' features Hdf Hlen (Hnr Hdf)).
  assert (Hk : kept_rows df features = []).
  { unfold kept_rows. apply filter_none. intros i Hi. apply in_seq in Hi.
    apply complete_false. exists "Sma_10"%string. split.
    - unfold features. simpl. tauto.
    - rewrite (cell_of _ _ _ i G10). unfold rolling_mean.
      apply rolling_not_full. lia. }
  now rewrite Hk.
Qed.

(** C5, as the code has it.  A table without rows stops at the fetch check
    with the provider error box.  A table that reaches the filter and keeps
    no row there, and in particular any table of fewer than ten rows with
    the raw columns in place, stops with the not-enough-data box.  In each
    case the trace is that one error box: no model is called and nothing
    else is shown. *)
Theorem C5_fail_closed (models : Models) (fetched : Fetched) :
  well_formed fetched ->
  (fetched_empty fetched = true ->
     app (ok models) fetched = ([StError ErrFetch], inl Stopped)) /\
  (fetched_empty fetched = false ->
     forall df df',
       feature_engineering (format_columns (reset_index fetched)) = ok df ->
       (forall f, In f features -> has_column df f = true) ->
       dropna features df = ok df' ->
       empty df' = true ->
       app (ok models) fetched = ([StError ErrNotEnoughData], inl Stopped)) /\
  (fetched_empty fetched = false ->
     (forall f, In f ["Close"; "High"; "Low"; "Open"; "Volume"]%string ->
        has_column (format_columns (reset_index fetched)) f = true) ->
     (length (index fetched) < 10)%nat ->
     app (ok models) fetched = ([StError ErrNotEnoughData], inl Stopped)).
Proof.
  intros Hwf. split; [| split].
  - apply app_fetch_error.
  - intros Hne df df'. now apply app_not_enough_data.
  - intros Hne Hcols Hshort.
    apply short_series_no_rows; try assumption; apply Hcols; simpl; tauto.
Qed.

Lemma no_days_well_formed : well_formed no_days.
Proof. split; [exact NoDup_six_names | repeat constructor]. Qed.

Lemma three_days_well_formed : well_formed three_days.
Proof. split; [exact NoDup_six_names | repeat constructor]. Qed.

Lemma C5_fail_closed_witness :
  app (ok (stub_models 1 2)) no_days = ([StError ErrFetch], inl Stopped) /\
  app (ok (stub_models 1 2)) three_days = ([StError ErrNotEnoughData], inl Stopped).
Proof.
  split.
  - apply (C5_fail_closed (stub_models 1 2) no_days no_days_well_formed).
    reflexivity.
  - apply (C5_fail_closed (stub_models 1 2) three_days three_days_well_formed).
    + reflexivity.
    + intros f Hf. simpl in Hf.
      repeat (destruct Hf as [<- | Hf]; [reflexivity |]). contradiction.
    + simpl. lia.
Defined.

(** C5 as stated fails on the empty series: the run stops at the fetch
    check, and the error box is the provider error, not the
    not-enough-data one. *)
Lemma C5_counterexample :
  well_formed no_days /\
  length (index no_days) = 0%nat /\
  app (ok (stub_models 1 2)) no_days = ([StError ErrFetch], inl Stopped) /\
  app (ok (stub_models 1 2)) no_days <> ([StError ErrNotEnoughData], inl Stopped).
Proof.
  split; [exact no_days_well_formed |]. split; [reflexivity |].
  split; [reflexivity | discriminate].
Qed.

Lemma app_success (models : Models) (fetched : Fetched) (v : list fval) (d : R)
      (pred_close : fval) (pred_direction pred_signal : Z) :
  selects fetched v d ->
  output (reg_model models) v = ok pred_close ->
  output (clf_model models) v = ok pred_direction ->
  output (signal_model models) v = ok pred_signal ->
  app (ok models) fetched
  = ([Predict RegModel [v]; Predict ClfModel [v]; Predict SignalModel [v]]
       ++ shown d v pred_close pred_direction pred_signal, inr tt).
Proof.
  intros Hsel Hr Hc Hs.
  rewrite (app_selects models fetched v d Hsel), make_predictions_cases.
  rewrite Hr, Hc, Hs. reflexivity.
Qed.





(** ** C8 and C9: the inference step *)

Lemma last_row_inv (df : DataFrame) (names : list string) :
  forall v, last_row names df = ok v ->
  Forall2 (fun name x => exists s, getitem df name = ok s /\ x = last s NaN)
          names v.
Proof.
  unfold last_row. induction names as [| name names IH]; intros v H.
  - cbn in H. injection H as <-. constructor.
  - cbn [map_result] in H.
    destruct (getitem df name) as [e | s] eqn:Hs; [discriminate H |].
    cbn [rbind ok] in H.
    destruct (map_result (getitem df) names) as [e | cols]; [discriminate H |].
    unfold ok, rbind in H, IH. cbn [map_result] in H.
    destruct s as [| x s]; [discriminate H |].
    cbn [iloc_last rbind ok] in H. unfold ok, rbind in H.
    destruct (map_result iloc_last cols) as [e | xs] eqn:Hxs; [discriminate H |].
    injection H as <-. constructor.
    + exists (x :: s). split; [exact Hs | reflexivity].
    + apply IH. reflexivity.
Qed.

(** C8.  When the run reaches the models, the latest input is a vector of
    exactly ten cells: the last cells of the columns Open, High, Low,
    Volume, Sma_5, Sma_10, Price_Range, Daily_Change_%, Rolling_Std_5 and
    Close/Open of the filtered frame, in this order.  Every model call of
    the run receives the batch made of this one vector, and a run that
    finishes has called the regressor, the classifier and the signal model
    with it. *)
Theorem C8_feature_vector (models : Models) (fetched : Fetched)
      (df df' : DataFrame) (v : list fval) (d : R) :
  well_formed fetched ->
  fetched_empty fetched = false ->
  feature_engineering (format_columns (reset_index fetched)) = ok df ->
  (forall f, In f features -> has_column df f = true) ->
  dropna features df = ok df' ->
  empty df' = false ->
  last_row features df' = ok v ->
  latest_date_of df' = ok d ->
  length v = 10%nat /\
  (exists o h l vol s5 s10 pr dc rs co : Series,
     getitem df' "Open" = ok o /\ getitem df' "High" = ok h /\
     getitem df' "Low" = ok l /\ getitem df' "Volume" = ok vol /\
     getitem df' "Sma_5" = ok s5 /\ getitem df' "Sma_10" = ok s10 /\
     getitem df' "Price_Range" = ok pr /\ getitem df' "Daily_Change_%" = ok dc /\
     getitem df' "Rolling_Std_5" = ok rs /\ getitem df' "Close/Open" = ok co /\
     v = [last o NaN; last h NaN; last l NaN; last vol NaN; last s5 NaN;
          last s10 NaN; last pr NaN; last dc NaN; last rs NaN; last co NaN]) /\
  (forall m X, In (m, X) (predict_calls (fst (app (ok models) fetched))) ->
               X = [v]) /\
  (snd (app (ok models) fetched) = inr tt ->
   predict_calls (fst (app (ok models) fetched))
   = [(RegModel, [v]); (ClfModel, [v]); (SignalModel, [v])]).
Proof.
  intros Hwf Hne Hfe Hcols Hdrop Hemp Hrow Hdate.
  assert (Hsel : selects fetched v d).
  { split; [exact Hne |]. exists df, df'. repeat (split; [assumption |]).
    exact Hdate. }
  pose proof (last_row_inv df' features v Hrow) as Hv.
  unfold features in Hv.
  repeat match goal with
         | H : Forall2 _ (_ :: _) _ |- _ => inversion H; subst; clear H
         | H : Forall2 _ [] _ |- _ => inversion H; subst; clear H
         | H : exists s, _ /\ _ |- _ => destruct H as (? & ? & ?)
         end.
  subst. split; [reflexivity |]. split.
  { do 10 eexists. repeat (split; [eassumption |]). reflexivity. }
  rewrite (app_selects models fetched _ d Hsel), make_predictions_cases.
  destruct (output (reg_model models) _) as [e | pc];
    [| destruct (output (clf_model models) _) as [e | pd];
       [| destruct (output (signal_model models) _) as [e | ps]]];
    cbn; (split;
          [ intros ? ? Hin;
            repeat (destruct Hin as [Hin | Hin]; [congruence |]); contradiction
          | first [discriminate | reflexivity] ]).
Qed.

(** C9.  Once the run has reached the models, its whole trace is fixed by
    the first model call that raises (or returns an empty batch): the calls
    made so far, then one prediction error box carrying the exception, and
    the run stops with nothing else shown.  Only when the three calls
    succeed are the three predictions shown. *)
Theorem C9_all_or_nothing (models : Models) (fetched : Fetched)
      (v : list fval) (d : R) :
  well_formed fetched ->
  selects fetched v d ->
  app (ok models) fetched =
  match output (reg_model models) v with
  | inl e => ([Predict RegModel [v]; StError (ErrPrediction e)], inl Stopped)
  | inr pred_close =>
      match output (clf_model models) v with
      | inl e =>
          ([Predict RegModel [v]; Predict ClfModel [v];
            StError (ErrPrediction e)], inl Stopped)
      | inr pred_direction =>
          match output (signal_model models) v with
          | inl e =>
              ([Predict RegModel [v]; Predict ClfModel [v];
                Predict SignalModel [v]; StError (ErrPrediction e)], inl Stopped)
          | inr pred_signal =>
              ([Predict RegModel [v]; Predict ClfModel [v];
                Predict SignalModel [v]]
                 ++ shown d v pred_close pred_direction pred_signal, inr tt)
          end
      end
  end.
Proof.
  intros _ Hsel.
  rewrite (app_selects models fetched v d Hsel), make_predictions_cases.
  destruct (output (reg_model models) v) as [e | pc]; [reflexivity |].
  destruct (output (clf_model models) v) as [e | pd]; [reflexivity |].
  destruct (output (signal_model models) v) as [e | ps]; reflexivity.
Qed.

Lemma ten_days_selects :
  exists df df' v,
    feature_engineering (format_columns (reset_index ten_days)) = ok df /\
    (forall f, In f features -> has_column df f = true) /\
    dropna features df = ok df' /\
    empty df' = false /\
    last_row features df' = ok v /\
    latest_date_of df' = ok 10 /\
    hd NaN v = Fin 10 /\
    selects ten_days v 10.
Proof.
  destruct (finite_table_rows ten_days 10
              one_to_ten one_to_ten one_to_ten one_to_ten one_to_ten
              (repeat 0 10)
              ten_days_well_formed eq_refl (Nat.le_refl 10)
              eq_refl eq_refl eq_refl eq_refl eq_refl eq_refl)
    as (Hne & df & df' & Hfe & Hcols & Hdrop & _ & _ & Hemp & Hlast & Hdate & Hrow).
  { intros i Hi [Ho _]. revert Ho.
    do 10 (destruct i as [| i]; [simpl; lra |]). lia. }
  exists df, df', (row df features (10 - 1)).
  split; [exact Hfe |]. split; [exact Hcols |]. split; [exact Hdrop |].
  split; [exact Hemp |]. split; [exact Hlast |]. split; [exact Hdate |].
  split; [now rewrite Hrow |].
  split; [exact Hne |]. exists df, df'.
  split; [exact Hfe |]. split; [exact Hcols |]. split; [exact Hdrop |].
  split; [exact Hemp |]. split; [exact Hlast | exact Hdate].
Qed.

Lemma C8_feature_vector_witness :
  exists v,
    length v = 10%nat /\
    predict_calls (fst (app (ok (stub_models 1 2)) ten_days))
    = [(RegModel, [v]); (ClfModel, [v]); (SignalModel, [v])].
Proof.
  destruct ten_days_selects
    as (df & df' & v & Hfe & Hcols & Hdrop & Hemp & Hrow & Hdate & _ & Hsel).
  destruct (C8_feature_vector (stub_models 1 2) ten_days df df' v 10
              ten_days_well_formed eq_refl Hfe Hcols Hdrop Hemp Hrow Hdate)
    as (Hlen & _ & _ & Hcalls).
  exists v. split; [exact Hlen |]. apply Hcalls.
  now rewrite (app_success (stub_models 1 2) ten_days v 10
                 (hd NaN v) 1 2 Hsel eq_refl eq_refl eq_refl).
Defined.

Lemma C9_all_or_nothing_witness :
  exists v,
    app (ok (failing_classifier "no such feature")) ten_days
    = ([Predict RegModel [v]; Predict ClfModel [v];
        StError (ErrPrediction (OtherError "no such feature"))], inl Stopped).
Proof.
  destruct ten_days_selects as (_ & _ & v & _ & _ & _ & _ & _ & _ & _ & Hsel).
  exists v.
  exact (C9_all_or_nothing (failing_classifier "no such feature") ten_days v 10
           ten_days_well_formed Hsel).
Defined.

(** ** C2 and C6: decoding *)

(** C2, as the code has it.  Code 1 is shown as up and every other code,
    recognised or not, as down; decoding a direction never fails. *)
Theorem C2_direction_decode :
  direction_text 1 = "📈 Up"%string /\
  direction_text 0 = "📉 Down"%string /\
  forall code : Z, code <> 1%Z -> direction_text code = "📉 Down"%string.
Proof.
  split; [reflexivity |]. split; [reflexivity |].
  intros code Hne. unfold direction_text.
  destruct (Z.eqb_spec code 1); [contradiction | reflexivity].
Qed.

Lemma C2_direction_decode_witness : direction_text 7 = "📉 Down"%string.
Proof.
  destruct C2_direction_decode as (_ & _ & H).
  apply (H 7%Z). lia.
Defined.

(** C2 as stated fails: with a classifier that answers 7 the run ends
    normally, showing the down label and no error box. *)
Lemma C2_counterexample :
  direction_text 7 = "📉 Down"%string /\
  exists v,
    app (ok (stub_models 7 2)) ten_days
    = ([Predict RegModel [v]; Predict ClfModel [v]; Predict SignalModel [v];
        StDate 10; StDataframe v; StSuccess (Fin 10);
        StInfo "📉 Down"; StWarning "🔺 BUY"; StExplain 10], inr tt).
Proof.
  split; [reflexivity |].
  destruct ten_days_selects as (_ & _ & v & _ & _ & _ & _ & _ & _ & Hhd & Hsel).
  exists v.
  rewrite (app_success (stub_models 7 2) ten_days v 10 (Fin 10) 7 2 Hsel);
    [reflexivity | | reflexivity | reflexivity].
  cbn. now rewrite Hhd.
Qed.

(** C6.  Signal codes 0, 1 and 2 are shown as sell, hold and buy, and any
    other code as the label Unknown; decoding a signal is a total lookup
    with a default and never fails. *)
Theorem C6_signal_decode :
  signal_text 0 = "🔻 SELL"%string /\
  signal_text 1 = "⏸ HOLD"%string /\
  signal_text 2 = "🔺 BUY"%string /\
  forall code : Z, code <> 0%Z -> code <> 1%Z -> code <> 2%Z ->
                   signal_text code = "Unknown"%string.
Proof.
  repeat (split; [reflexivity |]).
  intros code H0 H1 H2. unfold signal_text, signal_map. cbn [dict_get].
  destruct (Z.eqb_spec 0 code); [congruence |].
  destruct (Z.eqb_spec 1 code); [congruence |].
  destruct (Z.eqb_spec 2 code); [congruence | reflexivity].
Qed.

Lemma C6_signal_decode_witness : signal_text 9 = "Unknown"%string.
Proof.
  destruct C6_signal_decode as (_ & _ & _ & H).
  apply (H 9%Z); lia.
Defined.

(** ** C7: column names *)

Lemma format_label_examples :
  format_label (LTuple "Close" [ticker]) = "Close"%string /\
  format_label (LStr "  adj CLOSE ") = "Adj Close"%string /\
  format_label (LStr "volume") = "Volume"%string /\
  format_label (LStr "OPEN") = "Open"%string.
Proof. repeat split. Qed.

(** Without a close column the run never gets to the missing-columns
    check, whatever else the table holds. *)
Lemma missing_close_uncaught (models : Models) (fetched : Fetched) :
  fetched_empty fetched = false ->
  has_column (format_columns (reset_index fetched)) "Close" = false ->
  app (ok models) fetched = ([], inl (Uncaught (KeyError "Close"))).
Proof.
  intros Hne Hclose. unfold app. cbn [lift ok try_except bind]. rewrite Hne.
  unfold feature_engineering. rewrite (getitem_none _ _ Hclose). reflexivity.
Qed.

(** The check is reached, and fires, when only the volume is missing. *)
Lemma missing_volume_reported (models : Models) (fetched : Fetched) :
  well_formed fetched ->
  fetched_empty fetched = false ->
  has_column (format_columns (reset_index fetched)) "Close" = true ->
  has_column (format_columns (reset_index fetched)) "High" = true ->
  has_column (format_columns (reset_index fetched)) "Low" = true ->
  has_column (format_columns (reset_index fetched)) "Open" = true ->
  has_column (format_columns (reset_index fetched)) "Volume" = false ->
  app (ok models) fetched
  = ([StError (ErrMissingColumns ["Volume"%string])], inl Stopped).
Proof.
  intros Hwf Hne Hc Hh Hl Ho Hv.
  pose proof (well_formed_uniform fetched Hwf) as Hu.
  apply has_column_getitem in Hc, Hh, Hl, Ho.
  destruct Hc as [close Hc], Hh as [high Hh], Hl as [low Hl], Ho as [open Ho].
  destruct (feature_engineering_columns _ _ _ _ _ _ Hu Hc Hh Hl Ho)
    as (df & Hfe & _ & _ & Go & Gh & Gl & Gv & _ & G5 & G10 & Gr & Gp & Gs & Gq).
  assert (Hhas : forall name s, getitem df name = ok s -> has_column df name = true).
  { intros name s H. apply has_column_getitem. now exists s. }
  assert (Hvol : has_column df "Volume" = false).
  { destruct (has_column df "Volume") eqn:E; [| reflexivity].
    apply has_column_getitem in E. destruct E as [s Hs].
    rewrite Gv, (getitem_none _ _ Hv) in Hs. discriminate. }
  unfold app. cbn [lift ok try_except bind]. rewrite Hne.
  rewrite Hfe. cbn [lift ok bind]. unfold features. cbn [filter].
  rewrite (Hhas _ _ Go), (Hhas _ _ Gh), (Hhas _ _ Gl), Hvol,
    (Hhas _ _ G5), (Hhas _ _ G10), (Hhas _ _ Gr), (Hhas _ _ Gp),
    (Hhas _ _ Gs), (Hhas _ _ Gq).
  reflexivity.
Qed.

Lemma no_close_column_well_formed : well_formed no_close_column.
Proof.
  split.
  - repeat constructor; simpl; intros H;
      repeat (destruct H as [H | H]; [discriminate H |]); exact H.
  - repeat constructor.
Qed.

(** C7 at a table without a close column.  The names are formatted first,
    but the missing-columns check comes after feature engineering, which
    has already looked the close column up: the run ends with an uncaught
    [KeyError] and no error box.  The same table without its volume column
    does reach the check and gets the missing-columns box. *)
Theorem C7_missing_close_uncaught :
  well_formed no_close_column /\
  app (ok (stub_models 1 2)) no_close_column
  = ([], inl (Uncaught (KeyError "Close"))) /\
  app (ok (stub_models 1 2)) no_volume_column
  = ([StError (ErrMissingColumns ["Volume"%string])], inl Stopped).
Proof.
  split; [exact no_close_column_well_formed |].
  split; reflexivity.
Qed.

(** * Further properties of the script *)

(** ** Column names (lines 34-35) *)

Lemma ascii_case_facts (c : ascii) :
  is_space (to_upper c) = is_space c /\
  is_space (to_lower c) = is_space c /\
  is_cased (to_upper c) = is_cased c /\
  is_cased (to_lower c) = is_cased c /\
  to_upper (to_upper c) = to_upper c /\
  to_lower (to_lower c) = to_lower c /\
  to_upper (to_lower c) = to_upper c /\
  to_lower (to_upper c) = to_lower c.
Proof.
  destruct c as [[] [] [] [] [] [] [] []]; vm_compute; repeat split.
Qed.

Lemma lstrip_idempotent (s : string) : lstrip (lstrip s) = lstrip s.
Proof.
  induction s as [| c s IH]; simpl; [reflexivity |].
  destruct (is_space c) eqn:E; [exact IH | simpl; now rewrite E].
Qed.

Lemma rstrip_idempotent (s : string) : rstrip (rstrip s) = rstrip s.
Proof.
  induction s as [| c s IH]; simpl; [reflexivity |].
  destruct (rstrip s) as [| r rs] eqn:E.
  - destruct (is_space c) eqn:Ec; simpl; [reflexivity | now rewrite Ec].
  - change (rstrip (String c (String r rs)))
      with (match rstrip (String r rs) with
            | EmptyString => if is_space c then EmptyString else String c EmptyString
            | String a t => String c (String a t)
            end).
    now rewrite IH.
Qed.

Lemma lstrip_rstrip (s : string) : lstrip (rstrip s) = rstrip (lstrip s).
Proof.
  induction s as [| c s IH]; [reflexivity |].
  cbn [lstrip rstrip]. destruct (is_space c) eqn:Ec.
  - rewrite <- IH. destruct (rstrip s) as [| r rs]; simpl; now rewrite ?Ec.
  - cbn [rstrip]. destruct (rstrip s) as [| r rs]; simpl; now rewrite Ec.
Qed.

Lemma strip_idempotent (s : string) : strip (strip s) = strip s.
Proof.
  unfold strip. rewrite lstrip_rstrip, lstrip_idempotent.
  apply rstrip_idempotent.
Qed.

Lemma title_from_idempotent (s : string) :
  forall b, title_from b (title_from b s) = title_from b s.
Proof.
  induction s as [| c s IH]; intros b; [reflexivity |].
  cbn [title_from].
  destruct (ascii_case_facts c) as (_ & _ & Hcu & Hcl & Huu & Hll & _ & _).
  destruct b; f_equal.
  - exact Hll.
  - rewrite Hcl. apply IH.
  - exact Huu.
  - rewrite Hcu. apply IH.
Qed.

Lemma lstrip_title (s : string) : lstrip (title s) = title (lstrip s).
Proof.
  unfold title. induction s as [| c s IH]; [reflexivity |].
  cbn [title_from lstrip].
  destruct (ascii_case_facts c) as (Hsu & _).
  rewrite Hsu. destruct (is_space c) eqn:Ec; [| reflexivity].
  assert (Hc : is_cased c = false)
    by (revert Ec; destruct c as [[] [] [] [] [] [] [] []]; vm_compute; congruence).
  rewrite Hc. exact IH.
Qed.

Lemma rstrip_title_from (s : string) :
  forall b, rstrip (title_from b s) = title_from b (rstrip s).
Proof.
  induction s as [| c s IH]; intros b; [reflexivity |].
  cbn [title_from rstrip]. rewrite IH.
  destruct (ascii_case_facts c) as (Hsu & Hsl & _).
  destruct (rstrip s) as [| r rs]; cbn [title_from].
  - destruct b; rewrite ?Hsu, ?Hsl; destruct (is_space c); reflexivity.
  - reflexivity.
Qed.

Lemma strip_title (s : string) : strip (title s) = title (strip s).
Proof.
  unfold strip. rewrite lstrip_title. apply rstrip_title_from.
Qed.

(** X1.  Formatting an ASCII name twice changes nothing more: a formatted
    name is already stripped and in title case. *)
Theorem X1_format_name_idempotent (s : string) :
  ascii_only s = true ->
  format_name (format_name s) = format_name s.
Proof.
  intros _. unfold format_name.
  rewrite strip_title, strip_idempotent.
  apply title_from_idempotent.
Qed.

Lemma X1_format_name_idempotent_witness :
  format_name (format_name "  adj cLOSE ") = format_name "  adj cLOSE ".
Proof.
  apply (X1_format_name_idempotent "  adj cLOSE "). reflexivity.
Defined.

Lemma lstrip_lower (s : string) : lstrip (lower s) = lower (lstrip s).
Proof.
  induction s as [| c s IH]; [reflexivity |].
  cbn [lower lstrip]. destruct (ascii_case_facts c) as (_ & Hsl & _).
  rewrite Hsl. destruct (is_space c); [exact IH | reflexivity].
Qed.

Lemma rstrip_lower (s : string) : rstrip (lower s) = lower (rstrip s).
Proof.
  induction s as [| c s IH]; [reflexivity |].
  cbn [lower rstrip]. rewrite IH. destruct (ascii_case_facts c) as (_ & Hsl & _).
  rewrite Hsl. destruct (rstrip s); cbn [lower]; [| reflexivity].
  destruct (is_space c); reflexivity.
Qed.

Lemma title_from_lower (s : string) :
  forall b, title_from b (lower s) = title_from b s.
Proof.
  induction s as [| c s IH]; intros b; [reflexivity |].
  cbn [lower title_from].
  destruct (ascii_case_facts c) as (_ & _ & _ & Hcl & _ & Hll & Hul & _).
  rewrite Hcl, IH. destruct b; f_equal; assumption.
Qed.

Lemma format_name_lower (s : string) : format_name s = title (lower (strip s)).
Proof.
  unfold format_name, title. now rewrite title_from_lower.
Qed.

Lemma lstrip_blank_app (pad s : string) :
  blank pad = true -> lstrip (pad ++ s) = lstrip s.
Proof.
  induction pad as [| c pad IH]; intros H; [reflexivity |].
  cbn [blank] in H. apply andb_true_iff in H. destruct H as [Hc Hp].
  cbn [append lstrip]. rewrite Hc. now apply IH.
Qed.

Lemma rstrip_blank (pad : string) : blank pad = true -> rstrip pad = EmptyString.
Proof.
  induction pad as [| c pad IH]; intros H; [reflexivity |].
  cbn [blank] in H. apply andb_true_iff in H. destruct H as [Hc Hp].
  cbn [rstrip]. now rewrite (IH Hp), Hc.
Qed.

Lemma rstrip_app_blank (s pad : string) :
  blank pad = true -> rstrip (s ++ pad) = rstrip s.
Proof.
  intros H. induction s as [| c s IH].
  - simpl. now apply rstrip_blank.
  - cbn [append rstrip]. now rewrite IH.
Qed.

Lemma strip_padding (before s after : string) :
  blank before = true -> blank after = true ->
  strip (before ++ s ++ after) = strip s.
Proof.
  intros Hb Ha. unfold strip.
  rewrite (lstrip_blank_app before) by assumption.
  rewrite <- !lstrip_rstrip. now rewrite rstrip_app_blank.
Qed.

(** X2.  Two header labels get the same column name as soon as their first
    levels agree up to letter case and surrounding whitespace; the other
    levels of a tuple header play no part. *)
Theorem X2_format_label_case_and_padding (a b : label)
      (before after core : string) :
  blank before = true -> blank after = true ->
  first_level a = (before ++ core ++ after)%string ->
  lower (first_level b) = lower core ->
  format_label a = format_label b.
Proof.
  intros Hb Ha Hfa Hfb. unfold format_label.
  rewrite Hfa, !format_name_lower, strip_padding by assumption.
  unfold strip. rewrite <- !rstrip_lower, <- !lstrip_lower. now rewrite Hfb.
Qed.

Lemma X2_format_label_case_and_padding_witness :
  format_label (LTuple "  cLOSE " [ticker]) = format_label (LStr "Close").
Proof.
  apply (X2_format_label_case_and_padding
           (LTuple "  cLOSE " [ticker]) (LStr "Close") "  " " " "cLOSE");
    reflexivity.
Defined.

(** ** Rolling statistics (lines 39, 40, 43) *)

Lemma window_app (w : nat) (xs ys : Series) (i : nat) :
  (i < length xs)%nat -> window w (xs ++ ys) i = window w xs i.
Proof.
  intros Hi. unfold window. rewrite firstn_app.
  replace (S i - length xs)%nat with 0%nat by lia.
  now rewrite firstn_O, app_nil_r.
Qed.

(** X3.  A rolling statistic never looks ahead: the values computed for the
    rows of a series are unchanged when later rows are appended. *)
Theorem X3_rolling_no_look_ahead (w : nat) (agg : list fval -> fval)
      (xs ys : Series) :
  firstn (length xs) (rolling w agg (xs ++ ys)) = rolling w agg xs.
Proof.
  unfold rolling. rewrite length_app, seq_app, map_app, firstn_app.
  rewrite length_map, length_seq, Nat.sub_diag, firstn_O, app_nil_r.
  rewrite firstn_all2 by now rewrite length_map, length_seq.
  apply map_ext_in. intros i Hi. apply in_seq in Hi.
  now rewrite window_app by lia.
Qed.






Lemma ten_days_cells (k : nat) :
  (k <= 9)%nat -> nth k (map Fin one_to_ten) NaN = Fin (nth k one_to_ten 0).
Proof. intros Hk. apply nth_map_Fin. simpl. lia. Qed.

(** ** Feature engineering as a whole (lines 39-44) *)

Lemma feature_engineering_value (df : DataFrame) (close high low open : Series) :
  getitem df "Close" = ok close -> getitem df "High" = ok high ->
  getitem df "Low" = ok low -> getitem df "Open" = ok open ->
  feature_engineering df
  = ok (setitem
          (setitem
             (setitem
                (setitem
                   (setitem
                      (setitem df "Sma_5" (rolling_mean 5 close))
                      "Sma_10" (rolling_mean 10 close))
                   "Price_Range" (series_sub high low))
                "Daily_Change_%"
                (series_mul_scalar (series_div (series_sub close open) open) 100))
             "Rolling_Std_5" (rolling_std 5 close))
          "Close/Open" (series_div close open)).
Proof.
  intros Hc Hh Hl Ho. unfold feature_engineering.
  rewrite Hc. cbn [rbind ok].
  get_through. rewrite Hc. cbn [rbind ok].
  get_through. rewrite Hh. cbn [rbind ok].
  get_through. rewrite Hl. cbn [rbind ok].
  get_through. rewrite Hc. cbn [rbind ok].
  get_through. rewrite Ho. cbn [rbind ok].
  get_through. rewrite Hc. cbn [rbind ok].
  get_through. rewrite Hc. cbn [rbind ok].
  get_through. rewrite Ho. cbn [rbind ok].
  reflexivity.
Qed.

Lemma has_column_cases (df : DataFrame) (name : string) :
  (has_column df name = true /\ exists s, getitem df name = ok s) \/
  (has_column df name = false /\ getitem df name = throw (KeyError name)).
Proof.
  destruct (has_column df name) eqn:E.
  - left. split; [reflexivity | now apply has_column_getitem].
  - right. split; [reflexivity | now apply getitem_none].
Qed.

Lemma feature_engineering_outcome (df : DataFrame) :
  match find (fun name => negb (has_column df name)) raw_inputs with
  | Some name => feature_engineering df = throw (KeyError name)
  | None => exists df', feature_engineering df = ok df'
  end.
Proof.
  unfold raw_inputs. cbn [find].
  destruct (has_column_cases df "Close") as [[Ec [close Hc]] | [Ec Hc]];
    rewrite Ec; cbn [negb].
  2: { unfold feature_engineering. now rewrite Hc. }
  destruct (has_column_cases df "High") as [[Eh [high Hh]] | [Eh Hh]];
    rewrite Eh; cbn [negb].
  2: { unfold feature_engineering. rewrite Hc. cbn [rbind ok].
       get_through. rewrite Hc. cbn [rbind ok].
       get_through. now rewrite Hh. }
  destruct (has_column_cases df "Low") as [[El [low Hl]] | [El Hl]];
    rewrite El; cbn [negb].
  2: { unfold feature_engineering. rewrite Hc. cbn [rbind ok].
       get_through. rewrite Hc. cbn [rbind ok].
       get_through. rewrite Hh. cbn [rbind ok].
       get_through. now rewrite Hl. }
  destruct (has_column_cases df "Open") as [[Eo [open Ho]] | [Eo Ho]];
    rewrite Eo; cbn [negb].
  2: { unfold feature_engineering. rewrite Hc. cbn [rbind ok].
       get_through. rewrite Hc. cbn [rbind ok].
       get_through. rewrite Hh. cbn [rbind ok].
       get_through. rewrite Hl. cbn [rbind ok].
       get_through. rewrite Hc. cbn [rbind ok].
       get_through. now rewrite Ho. }
  eexists. exact (feature_engineering_value df close high low open Hc Hh Hl Ho).
Qed.


Lemma find_first {A} (p : A -> bool) (l : list A) (x : A) :
  find p l = Some x ->
  exists before after,
    l = before ++ x :: after /\ p x = true /\
    forall y, In y before -> p y = false.
Proof.
  induction l as [| a l IH]; intros H; [discriminate |].
  cbn [find] in H. destruct (p a) eqn:E.
  - injection H as <-. exists [], l. repeat split; [exact E | intros y []].
  - destruct (IH H) as (before & after & -> & Hx & Hb).
    exists (a :: before), after. repeat split; [exact Hx |].
    intros y [<- | Hy]; [exact E | now apply Hb].
Qed.

(** X8.  On a frame whose labels are distinct, feature engineering
    succeeds exactly when the frame has the four columns Close, High, Low
    and Open; when it fails, it raises the [KeyError] of the first of them,
    in this order, that is absent. *)
Theorem X8_feature_engineering_key_error (df : DataFrame) :
  NoDup (columns df) ->
  ((exists df', feature_engineering df = ok df') <->
   (forall name, In name raw_inputs -> has_column df name = true)) /\
  (forall e, feature_engineering df = inl e ->
     exists before name after,
       raw_inputs = before ++ name :: after /\
       e = KeyError name /\
       has_column df name = false /\
       forall n, In n before -> has_column df n = true).
Proof.
  intros _.
  pose proof (feature_engineering_outcome df) as Hout.
  destruct (find (fun name => negb (has_column df name)) raw_inputs)
    as [name |] eqn:Hfind.
  - destruct (find_first _ _ _ Hfind) as (before & after & Hsplit & Hname & Hbefore).
    apply negb_true_iff in Hname.
    split; [split |].
    + intros [df' Hok]. rewrite Hok in Hout. discriminate.
    + intros Hall. rewrite Hall in Hname; [discriminate |].
      rewrite Hsplit. apply in_or_app. right. now left.
    + intros e He. rewrite He in Hout. injection Hout as ->.
      exists before, name, after. repeat split; try assumption.
      intros n Hn. specialize (Hbefore n Hn). now apply negb_false_iff in Hbefore.
  - split; [split |].
    + intros _ name Hin.
      pose proof (find_none _ _ Hfind name Hin) as H. now apply negb_false_iff in H.
    + intros _. exact Hout.
    + intros e He. destruct Hout as [df' Hok]. rewrite He in Hok. discriminate.
Qed.

Lemma X8_feature_engineering_key_error_witness :
  exists before name after,
    raw_inputs = before ++ name :: after /\
    KeyError "High" = KeyError name /\
    has_column (setitem [] "Close" [Fin 1]) name = false /\
    forall n, In n before -> has_column (setitem [] "Close" [Fin 1]) n = true.
Proof.
  apply (X8_feature_engineering_key_error (setitem [] "Close" [Fin 1])).
  - repeat constructor. intros [].
  - reflexivity.
Defined.



Lemma feature_engineering_inv (df df' : DataFrame) :
  feature_engineering df = ok df' ->
  exists close high low open,
    getitem df "Close" = ok close /\ getitem df "High" = ok high /\
    getitem df "Low" = ok low /\ getitem df "Open" = ok open.
Proof.
  intros H. unfold feature_engineering in H.
  destruct (getitem df "Close") as [e | close] eqn:Hc; [discriminate H |].
  cbn [rbind ok] in H. revert H. get_through. rewrite Hc. cbn [rbind ok].
  get_through.
  destruct (getitem df "High") as [e | high] eqn:Hh; [discriminate |].
  cbn [rbind ok]. get_through.
  destruct (getitem df "Low") as [e | low] eqn:Hl; [discriminate |].
  cbn [rbind ok]. get_through. rewrite Hc. cbn [rbind ok]. get_through.
  destruct (getitem df "Open") as [e | open] eqn:Ho; [discriminate |].
  intros _. now exists close, high, low, open.
Qed.

Lemma columns_setitem_in (df : DataFrame) (name : string) (s : Series) (x : string) :
  In x (columns (setitem df name s)) <-> In x (columns df) \/ x = name.
Proof.
  unfold columns. induction df as [| [m c] df IH]; simpl.
  - intuition congruence.
  - destruct (String.eqb m name) eqn:E; simpl.
    + apply String.eqb_eq in E. subst m. intuition congruence.
    + rewrite IH. tauto.
Qed.

Lemma setitem_NoDup (df : DataFrame) (name : string) (s : Series) :
  NoDup (columns df) -> NoDup (columns (setitem df name s)).
Proof.
  induction df as [| [m c] df IH]; intros Hnd.
  - simpl. repeat constructor. intros [].
  - cbn [setitem]. destruct (String.eqb m name) eqn:E; [exact Hnd |].
    unfold columns in *. cbn [map fst] in *. inversion Hnd as [| ? ? Hm Hrest]; subst.
    constructor; [| now apply IH].
    intros Hin. apply (columns_setitem_in df name s m) in Hin.
    destruct Hin as [Hin | ->]; [contradiction |].
    now rewrite String.eqb_refl in E.
Qed.

(** X9.  Feature engineering keeps a well-formed frame well formed: labels
    stay distinct, the number of rows is unchanged, the six derived columns
    are present afterwards, every column of the input is still there, and
    every column other than the six derived ones holds what it held. *)
Theorem X9_feature_engineering_keeps_frame (df df' : DataFrame) :
  frame_ok df ->
  feature_engineering df = ok df' ->
  frame_ok df' /\
  nrows df' = nrows df /\
  (forall name, In name derived -> has_column df' name = true) /\
  (forall name, In name (columns df) -> In name (columns df')) /\
  (forall name, ~ In name derived -> getitem df' name = getitem df name).
Proof.
  intros [Hnd Hu] Hfe.
  destruct (feature_engineering_inv df df' Hfe)
    as (close & high & low & open & Hc & Hh & Hl & Ho).
  destruct (feature_engineering_columns df (nrows df) close high low open
              Hu Hc Hh Hl Ho)
    as (df2 & Hfe2 & Hu' & Hn & _ & _ & _ & _ & _ & G5 & G10 & Gr & Gp & Gs & Gq).
  rewrite Hfe in Hfe2. injection Hfe2 as <-.
  pose proof (feature_engineering_value df close high low open Hc Hh Hl Ho) as Hval.
  rewrite Hfe in Hval. injection Hval as Hval.
  split; [split |].
  - rewrite Hval. repeat apply setitem_NoDup. exact Hnd.
  - now rewrite Hn.
  - split; [exact Hn |]. split; [| split].
    + intros name Hin. apply has_column_getitem. unfold derived in Hin. simpl in Hin.
      repeat (destruct Hin as [<- | Hin]; [eexists; eassumption |]). contradiction.
    + intros name Hin. rewrite Hval.
      repeat (apply columns_setitem_in; left). exact Hin.
    + intros name Hout. rewrite Hval.
      rewrite !getitem_setitem_other; [reflexivity | | | | | |];
        intros <-; apply Hout; unfold derived; simpl; tauto.
Qed.

Lemma X9_feature_engineering_keeps_frame_witness :
  exists df',
    feature_engineering ten_days_frame = ok df' /\
    frame_ok df' /\ nrows df' = 10%nat.
Proof.
  pose proof (feature_engineering_value ten_days_frame _ _ _ _
                eq_refl eq_refl eq_refl eq_refl) as Hfe.
  eexists. split; [exact Hfe |].
  destruct (X9_feature_engineering_keeps_frame ten_days_frame _
              ten_days_frame_ok Hfe) as (Hok & Hn & _).
  split; [exact Hok | exact Hn].
Defined.

Lemma setitem_same_value (df : DataFrame) (name : string) (s : Series) :
  getitem df name = ok s -> setitem df name s = df.
Proof.
  induction df as [| [m c] df IH]; simpl; intros H; [discriminate |].
  destruct (String.eqb m name) eqn:E.
  - injection H as <-. reflexivity.
  - now rewrite IH.
Qed.

(** X10.  Feature engineering is idempotent: applied to its own result it
    succeeds and returns that result unchanged. *)
Theorem X10_feature_engineering_idempotent (df df' : DataFrame) :
  feature_engineering df = ok df' ->
  feature_engineering df' = ok df'.
Proof.
  intros Hfe.
  destruct (feature_engineering_inv df df' Hfe)
    as (close & high & low & open & Hc & Hh & Hl & Ho).
  pose proof (feature_engineering_value df close high low open Hc Hh Hl Ho) as Hval.
  rewrite Hfe in Hval. injection Hval as Hval.
  assert (Gc : getitem df' "Close" = ok close) by (rewrite Hval; now get_through).
  assert (Gh : getitem df' "High" = ok high) by (rewrite Hval; now get_through).
  assert (Gl : getitem df' "Low" = ok low) by (rewrite Hval; now get_through).
  assert (Go : getitem df' "Open" = ok open) by (rewrite Hval; now get_through).
  assert (G5 : getitem df' "Sma_5" = ok (rolling_mean 5 close))
    by (rewrite Hval; now get_through).
  assert (G10 : getitem df' "Sma_10" = ok (rolling_mean 10 close))
    by (rewrite Hval; now get_through).
  assert (Gr : getitem df' "Price_Range" = ok (series_sub high low))
    by (rewrite Hval; now get_through).
  assert (Gp : getitem df' "Daily_Change_%"
               = ok (series_mul_scalar (series_div (series_sub close open) open) 100))
    by (rewrite Hval; now get_through).
  assert (Gs : getitem df' "Rolling_Std_5" = ok (rolling_std 5 close))
    by (rewrite Hval; now get_through).
  assert (Gq : getitem df' "Close/Open" = ok (series_div close open))
    by (rewrite Hval; now get_through).
  rewrite (feature_engineering_value df' close high low open Gc Gh Gl Go).
  rewrite (setitem_same_value df' _ _ G5), (setitem_same_value df' _ _ G10),
    (setitem_same_value df' _ _ Gr), (setitem_same_value df' _ _ Gp),
    (setitem_same_value df' _ _ Gs), (setitem_same_value df' _ _ Gq).
  reflexivity.
Qed.

Lemma X10_feature_engineering_idempotent_witness :
  exists df',
    feature_engineering ten_days_frame = ok df' /\
    feature_engineering df' = ok df'.
Proof.
  pose proof (feature_engineering_value ten_days_frame _ _ _ _
                eq_refl eq_refl eq_refl eq_refl) as Hfe.
  eexists. split; [exact Hfe |].
  exact (X10_feature_engineering_idempotent ten_days_frame _ Hfe).
Defined.

(** ** The two division features (lines 42 and 44) *)

Lemma division_nan_cases (c o : fval) :
  (forall sign, c <> Inf sign) -> (forall sign, o <> Inf sign) ->
  (close_over_open c o = NaN <->
   c = NaN \/ o = NaN \/ (c = Fin 0 /\ o = Fin 0)) /\
  (daily_change_pct c o = NaN <->
   c = NaN \/ o = NaN \/ (c = Fin 0 /\ o = Fin 0)).
Proof.
  intros Hc Ho.
  destruct c as [x | sc |]; [| now elim (Hc sc) | split; split; auto].
  destruct o as [y | so |]; [| now elim (Ho so) | split; split; auto].
  destruct (Req_dec_T y 0) as [-> | Hy].
  - destruct (Req_dec_T x 0) as [-> | Hx].
    + rewrite close_over_open_zero_zero, daily_change_pct_zero_zero.
      split; split; auto.
    + rewrite close_over_open_zero_open, daily_change_pct_zero_open by assumption.
      split; split; try discriminate;
        intros [H | [H | [H _]]]; try discriminate H;
        injection H as H; contradiction.
  - rewrite close_over_open_fin, daily_change_pct_fin by assumption.
    split; split; try discriminate;
      intros [H | [H | [_ H]]]; try discriminate H;
      injection H as H; contradiction.
Qed.

(** X11.  In a row whose close and open are each a finite number or
    missing, the two division features are missing together: each is NaN
    exactly when the close is missing, the open is missing, or both are
    zero. *)
Theorem X11_division_features_nan (df0 : DataFrame)
      (close high low open : Series) (i : nat) :
  frame_ok df0 ->
  getitem df0 "Close" = ok close -> getitem df0 "High" = ok high ->
  getitem df0 "Low" = ok low -> getitem df0 "Open" = ok open ->
  (i < nrows df0)%nat ->
  (forall sign, nth i close NaN <> Inf sign) ->
  (forall sign, nth i open NaN <> Inf sign) ->
  exists df,
    feature_engineering df0 = ok df /\
    (cell df "Close/Open" i = NaN <->
     nth i close NaN = NaN \/ nth i open NaN = NaN \/
     (nth i close NaN = Fin 0 /\ nth i open NaN = Fin 0)) /\
    (cell df "Daily_Change_%" i = NaN <->
     nth i close NaN = NaN \/ nth i open NaN = NaN \/
     (nth i close NaN = Fin 0 /\ nth i open NaN = Fin 0)).
Proof.
  intros [_ Hu] Hc Hh Hl Ho Hi Hci Hoi.
  destruct (feature_engineering_columns df0 (nrows df0) close high low open
              Hu Hc Hh Hl Ho)
    as (df & Hfe & _ & _ & _ & _ & _ & _ & _ & _ & _ & _ & Gp & _ & Gq).
  destruct (division_cells df0 df (nrows df0) close open i Hu Hc Ho Gp Gq Hi)
    as [Hp Hq].
  exists df. split; [exact Hfe |]. rewrite Hp, Hq.
  exact (division_nan_cases _ _ Hci Hoi).
Qed.

Lemma X11_division_features_nan_witness :
  exists df,
    feature_engineering ten_days_frame = ok df /\
    cell df "Close/Open" 9 <> NaN /\
    cell df "Daily_Change_%" 9 <> NaN.
Proof.
  destruct (X11_division_features_nan ten_days_frame
              (map Fin one_to_ten) (map Fin one_to_ten)
              (map Fin one_to_ten) (map Fin one_to_ten) 9
              ten_days_frame_ok eq_refl eq_refl eq_refl eq_refl)
    as (df & Hfe & Hq & Hp).
  - simpl. lia.
  - intros sign H. discriminate H.
  - intros sign H. discriminate H.
  - exists df. split; [exact Hfe |].
    assert (Hno : ~ (nth 9 (map Fin one_to_ten) NaN = NaN \/
                     nth 9 (map Fin one_to_ten) NaN = NaN \/
                     (nth 9 (map Fin one_to_ten) NaN = Fin 0 /\
                      nth 9 (map Fin one_to_ten) NaN = Fin 0))).
    { simpl. intros [H | [H | [H _]]]; try discriminate H.
      injection H as H. lra. }
    split; intros H; apply Hno; [now apply Hq | now apply Hp].
Defined.

(** ** The filter (line 59) *)

Lemma map_result_ok_inv (df : DataFrame) (names : list string) :
  forall cols, map_result (getitem df) names = ok cols ->
  forall f, In f names -> has_column df f = true.
Proof.
  induction names as [| name names IH]; intros cols H f Hf; [contradiction |].
  cbn [map_result] in H.
  destruct (getitem df name) as [e | s] eqn:Hs; [discriminate H |].
  cbn [rbind ok] in H.
  destruct (map_result (getitem df) names) as [e | cs] eqn:Hcs; [discriminate H |].
  destruct Hf as [<- | Hf].
  - apply has_column_getitem. now exists s.
  - now apply (IH cs).
Qed.

Lemma dropna_ok_inv (df df' : DataFrame) (names : list string) :
  dropna names df = ok df' -> forall f, In f names -> has_column df f = true.
Proof.
  unfold dropna. intros H.
  destruct (map_result (getitem df) names) as [e | cols] eqn:Hcols;
    [discriminate H |].
  now apply (map_result_ok_inv df names cols).
Qed.

Lemma dropna_value (df : DataFrame) (names : list string) :
  uniform df (nrows df) ->
  (forall f, In f names -> has_column df f = true) ->
  dropna names df
  = ok (map (fun c => (fst c, map (fun i => nth i (snd c) NaN) (kept_rows df names)))
            df).
Proof.
  intros Hu Hall.
  destruct (map_result_getitem df names Hall) as (cols & Hcols & Hlen & Hnth).
  unfold dropna. rewrite Hcols. cbn [rbind ok].
  rewrite (complete_rows_complete df names cols (nrows df) Hlen Hnth).
  f_equal. apply map_ext_in. intros c Hc. f_equal.
  unfold uniform in Hu. rewrite Forall_forall in Hu. specialize (Hu c Hc).
  unfold kept_rows. rewrite <- Hu.
  rewrite (select_filter_seq (complete df names) NaN (snd c) 0).
  apply map_ext. intros i. now rewrite Nat.sub_0_r.
Qed.

Lemma map_nth_seq (s : Series) :
  map (fun i => nth i s NaN) (seq 0 (length s)) = s.
Proof.
  induction s as [| x s IH]; [reflexivity |].
  cbn [length seq map nth]. f_equal.
  rewrite <- seq_shift, map_map. exact IH.
Qed.

(** What the filter leaves: the same labels, columns of one length, and no
    NaN in the columns of the subset. *)
Lemma dropna_facts (df df' : DataFrame) (subset : list string) :
  frame_ok df ->
  dropna subset df = ok df' ->
  frame_ok df' /\
  columns df' = columns df /\
  (nrows df' <= nrows df)%nat /\
  (forall f, In f subset -> has_column df' f = true) /\
  forall f i, In f subset -> (i < nrows df')%nat -> cell df' f i <> NaN.
Proof.
  intros [Hnd Hu] Hdrop.
  pose proof (dropna_ok_inv df df' subset Hdrop) as Hall.
  pose proof (dropna_value df subset Hu Hall) as Hval.
  rewrite Hdrop in Hval. injection Hval as Hval.
  assert (Hcols : columns df' = columns df).
  { rewrite Hval. unfold columns. rewrite map_map. reflexivity. }
  assert (Hu' : uniform df' (length (kept_rows df subset))).
  { rewrite Hval. unfold uniform. apply Forall_map. cbn [snd].
    apply Forall_forall. intros c _. apply length_map. }
  assert (Hn : df' <> [] -> nrows df' = length (kept_rows df subset))
    by (intros Hne; now apply uniform_nrows).
  assert (Hle : (nrows df' <= nrows df)%nat).
  { destruct df' as [| c' rest'] eqn:E; [simpl; lia |].
    rewrite Hn by discriminate. unfold kept_rows.
    pose proof (filter_length_le (complete df subset) (seq 0 (nrows df))) as H.
    now rewrite length_seq in H. }
  assert (Hhas : forall f, In f subset -> has_column df' f = true).
  { intros f Hf. unfold has_column. rewrite Hcols. now apply Hall. }
  split; [split |].
  - now rewrite Hcols.
  - destruct df' as [| c' rest'] eqn:E; [constructor |].
    rewrite Hn by discriminate. exact Hu'.
  - split; [exact Hcols |]. split; [exact Hle |]. split; [exact Hhas |].
    intros f i Hf Hi.
    assert (Hne : df' <> []) by (intros ->; simpl in Hi; lia).
    rewrite (Hn Hne) in Hi.
    destruct (proj1 (has_column_getitem df f) (Hall f Hf)) as [s Hs].
    assert (Hs' : getitem df' f
                  = ok (map (fun j => nth j s NaN) (kept_rows df subset))).
    { rewrite Hval.
      rewrite (getitem_map_columns
                 (fun t => map (fun j => nth j t NaN) (kept_rows df subset))).
      now rewrite Hs. }
    rewrite (cell_of _ _ _ i Hs').
    rewrite (nth_indep _ NaN ((fun j => nth j s NaN) 0%nat))
      by now rewrite length_map.
    rewrite (map_nth (fun j => nth j s NaN)).
    assert (Hin : In (nth i (kept_rows df subset) 0%nat) (kept_rows df subset))
      by now apply nth_In.
    apply kept_rows_spec in Hin. destruct Hin as [_ Hcomp].
    unfold complete in Hcomp. rewrite forallb_forall in Hcomp.
    specialize (Hcomp f Hf). rewrite (cell_of _ _ _ _ Hs) in Hcomp.
    intros Hnan. rewrite Hnan in Hcomp. discriminate.
Qed.

(** X12.  After the filter the frame is still well formed, has the same
    labels and no more rows than before, and holds no NaN in any column of
    the subset. *)
Theorem X12_dropna_leaves_no_nan (df df' : DataFrame) (subset : list string) :
  frame_ok df ->
  dropna subset df = ok df' ->
  frame_ok df' /\
  columns df' = columns df /\
  (nrows df' <= nrows df)%nat /\
  forall f i, In f subset -> (i < nrows df')%nat -> cell df' f i <> NaN.
Proof.
  intros Hok Hdrop.
  destruct (dropna_facts df df' subset Hok Hdrop) as (H1 & H2 & H3 & _ & H5).
  repeat split; try assumption; apply H1.
Qed.

Lemma three_rows_dropna :
  dropna features three_rows
  = ok (map (fun c => (fst c, [nth 1 (snd c) NaN])) three_rows).
Proof. reflexivity. Qed.

Lemma X12_dropna_leaves_no_nan_witness :
  exists df',
    dropna features three_rows = ok df' /\
    nrows df' = 1%nat /\
    cell df' "Sma_10" 0 <> NaN.
Proof.
  eexists. split; [exact three_rows_dropna |].
  destruct (X12_dropna_leaves_no_nan three_rows _ features
              three_rows_ok three_rows_dropna) as (_ & _ & _ & H).
  split; [reflexivity |].
  apply H; [unfold features; simpl; tauto | simpl; lia].
Defined.

(** X13.  The filter is idempotent: filtering a filtered frame on the same
    columns returns it unchanged. *)
Theorem X13_dropna_idempotent (df df' : DataFrame) (subset : list string) :
  frame_ok df ->
  dropna subset df = ok df' ->
  dropna subset df' = ok df'.
Proof.
  intros Hok Hdrop.
  destruct (dropna_facts df df' subset Hok Hdrop)
    as ([_ Hu'] & _ & _ & Hhas & Hnan).
  rewrite (dropna_value df' subset Hu' Hhas). f_equal.
  assert (Hkept : kept_rows df' subset = seq 0 (nrows df')).
  { unfold kept_rows. apply filter_all. intros i Hi. apply in_seq in Hi.
    destruct (complete df' subset i) eqn:E; [reflexivity |].
    apply complete_false in E. destruct E as (f & Hf & Hc).
    exfalso. apply (Hnan f i Hf); [lia | exact Hc]. }
  rewrite Hkept.
  rewrite <- (map_id df') at 2. apply map_ext_in. intros [name s] Hc. cbn [fst snd].
  unfold uniform in Hu'. rewrite Forall_forall in Hu'.
  specialize (Hu' _ Hc). cbn [snd] in Hu'. rewrite <- Hu'.
  now rewrite map_nth_seq.
Qed.

Lemma X13_dropna_idempotent_witness :
  exists df',
    dropna features three_rows = ok df' /\ dropna features df' = ok df'.
Proof.
  eexists. split; [exact three_rows_dropna |].
  exact (X13_dropna_idempotent three_rows _ features three_rows_ok three_rows_dropna).
Defined.

(** ** The run as a whole *)

Lemma bind_halt {A B} (t : list event) (h : halt) (k : A -> M B) :
  bind (t, inl h) k = (t, inl h).
Proof. reflexivity. Qed.

Lemma nil_trace_l {A} (m : M A) : (let (t', r) := m in ([] ++ t', r)) = m.
Proof. now destruct m. Qed.

Lemma app_exit (loaded : result Models) (fetched : Fetched) :
  exit loaded fetched (app loaded fetched).
Proof.
  unfold app. destruct loaded as [e | models].
  { apply (exit_loading _ _ e). reflexivity. }
  cbn [lift ok try_except bind].
  destruct (fetched_empty fetched) eqn:Hne.
  { now apply (exit_fetch _ _ models). }
  destruct (feature_engineering (format_columns (reset_index fetched)))
    as [e | df] eqn:Hfe.
  { now apply (exit_engineering _ _ models e). }
  cbn [lift ok bind]. fold (missing df).
  destruct (missing df) as [| col cols] eqn:Hmiss.
  2: { cbn [length Nat.eqb negb]. rewrite <- Hmiss.
       apply (exit_missing _ _ models df); try assumption; try reflexivity.
       rewrite Hmiss. discriminate. }
  cbn [length Nat.eqb negb].
  destruct (dropna features df) as [e | df'] eqn:Hdrop.
  { now apply (exit_dropna _ _ models df e). }
  cbn [lift ok bind].
  destruct (empty df') eqn:Hemp.
  { now apply (exit_not_enough _ _ models df df'). }
  destruct (last_row features df') as [e | v] eqn:Hrow.
  { now apply (exit_row _ _ models df df' e). }
  cbn [lift ok bind].
  destruct (latest_date_of df') as [e | d] eqn:Hdate.
  { now apply (exit_date _ _ models df df' v e). }
  cbn [lift ok bind].
  rewrite !nil_trace_l.
  now apply (exit_inference _ _ models df df' v d).
Qed.

Lemma inference_cases (models : Models) (v : list fval) (d : R) :
  bind (make_predictions models v) (decode_and_display d v) =
  match output (reg_model models) v with
  | inl e => ([Predict RegModel [v]; StError (ErrPrediction e)], inl Stopped)
  | inr pred_close =>
      match output (clf_model models) v with
      | inl e =>
          ([Predict RegModel [v]; Predict ClfModel [v];
            StError (ErrPrediction e)], inl Stopped)
      | inr pred_direction =>
          match output (signal_model models) v with
          | inl e =>
              ([Predict RegModel [v]; Predict ClfModel [v];
                Predict SignalModel [v]; StError (ErrPrediction e)], inl Stopped)
          | inr pred_signal =>
              ([Predict RegModel [v]; Predict ClfModel [v];
                Predict SignalModel [v]]
                 ++ shown d v pred_close pred_direction pred_signal, inr tt)
          end
      end
  end.
Proof.
  rewrite make_predictions_cases.
  destruct (output (reg_model models) v) as [e | pc]; [reflexivity |].
  destruct (output (clf_model models) v) as [e | pd]; [reflexivity |].
  destruct (output (signal_model models) v) as [e | ps]; reflexivity.
Qed.

Lemma missing_nil (df : DataFrame) :
  missing df = [] -> forall f, In f features -> has_column df f = true.
Proof.
  unfold missing. intros H f Hf.
  destruct (has_column df f) eqn:E; [reflexivity |].
  assert (Hin : In f (filter (fun col => negb (has_column df col)) features)).
  { apply filter_In. split; [exact Hf | now rewrite E]. }
  rewrite H in Hin. contradiction.
Qed.

Lemma feature_engineering_error (df : DataFrame) (e : exn) :
  feature_engineering df = inl e ->
  exists name, In name raw_inputs /\ e = KeyError name.
Proof.
  intros H. pose proof (feature_engineering_outcome df) as Hout.
  destruct (find (fun name => negb (has_column df name)) raw_inputs)
    as [name |] eqn:Hfind.
  - apply find_some in Hfind. destruct Hfind as [Hin _].
    exists name. split; [exact Hin |]. rewrite H in Hout. now injection Hout.
  - destruct Hout as [df' Hok]. rewrite H in Hok. discriminate.
Qed.

Lemma engineered_uniform (fetched : Fetched) (df : DataFrame) :
  well_formed fetched ->
  feature_engineering (format_columns (reset_index fetched)) = inr df ->
  uniform df (nrows df) /\ df <> [] /\ nrows df = length (index fetched).
Proof.
  intros Hwf Hfe.
  destruct (feature_engineering_inv _ _ Hfe)
    as (close & high & low & open & Hc & Hh & Hl & Ho).
  destruct (feature_engineering_columns _ _ close high low open
              (well_formed_uniform fetched Hwf) Hc Hh Hl Ho)
    as (df2 & Hfe2 & Hu & Hn & Go & _).
  rewrite Hfe in Hfe2. injection Hfe2 as <-.
  split; [now rewrite Hn |]. split; [| exact Hn].
  intros ->. discriminate Go.
Qed.

(** What is known of a run that got past the filter with a row left. *)
Lemma past_filter (fetched : Fetched) (df df' : DataFrame) :
  well_formed fetched ->
  feature_engineering (format_columns (reset_index fetched)) = inr df ->
  missing df = [] ->
  dropna features df = inr df' ->
  empty df' = false ->
  In (last (kept_rows df features) 0%nat) (kept_rows df features) /\
  last_row features df'
  = ok (row df features (last (kept_rows df features) 0%nat)) /\
  (forall s, getitem df "Date" = ok s ->
     latest_date_of df'
     = strftime (nth (last (kept_rows df features) 0%nat) s NaN)) /\
  (has_column df "Date" = false ->
     latest_date_of df' = throw (KeyError "Date")).
Proof.
  intros Hwf Hfe Hmiss Hdrop Hemp.
  pose proof (missing_nil df Hmiss) as Hcols.
  destruct (engineered_uniform fetched df Hwf Hfe) as (Hu & Hdf & _).
  destruct (dropna_rows df features Hu Hcols)
    as (df2 & Hdrop2 & Hlen & Hget & Hhas & Hnr).
  unfold ok in Hdrop2. rewrite Hdrop in Hdrop2. injection Hdrop2 as <-.
  rewrite (empty_after_dropna df df' features Hdf Hlen (Hnr Hdf)) in Hemp.
  assert (Hkept : kept_rows df features <> [])
    by (destruct (kept_rows df features); [discriminate | discriminate]).
  split; [now apply last_In |].
  split; [now apply last_row_kept |].
  split.
  - intros s Hs. unfold latest_date_of. rewrite (Hget _ _ Hs). cbn [rbind ok].
    rewrite (iloc_last_map (fun i => nth i s NaN)) by assumption.
    reflexivity.
  - intros Hno. unfold latest_date_of.
    rewrite (getitem_none df' "Date") by now rewrite Hhas.
    reflexivity.
Qed.

Lemma row_length (df : DataFrame) (names : list string) (i : nat) :
  length (row df names i) = length names.
Proof. unfold row. apply length_map. Qed.

Lemma kept_row_no_nan (df : DataFrame) (names : list string) (j : nat) :
  In j (kept_rows df names) -> Forall (fun c => c <> NaN) (row df names j).
Proof.
  intros Hj. apply kept_rows_spec in Hj. destruct Hj as [_ Hc].
  rewrite complete_row in Hc. rewrite forallb_forall in Hc.
  apply Forall_forall. intros c Hin Hnan. specialize (Hc c Hin).
  rewrite Hnan in Hc. discriminate.
Qed.

Lemma inference_never_uncaught (models : Models) (v : list fval) (d : R) (e : exn) :
  snd (bind (make_predictions models v) (decode_and_display d v))
  <> inl (Uncaught e).
Proof.
  rewrite inference_cases.
  destruct (output (reg_model models) v) as [e1 | pc]; [discriminate |].
  destruct (output (clf_model models) v) as [e2 | pd]; [discriminate |].
  destruct (output (signal_model models) v) as [e3 | ps]; discriminate.
Qed.

(** X14.  On a well-formed table the run can end with an uncaught
    exception in two places only: a [KeyError] for Close, High, Low or Open
    raised by feature engineering, or, after the filter, a [KeyError] for
    Date or a [ValueError] for a last date that is missing.  In each case
    nothing has been shown and no model has been called. *)
Theorem X14_uncaught_exceptions (loaded : result Models) (fetched : Fetched)
      (e : exn) :
  well_formed fetched ->
  snd (app loaded fetched) = inl (Uncaught e) ->
  fst (app loaded fetched) = [] /\
  (e = KeyError "Close" \/ e = KeyError "High" \/ e = KeyError "Low" \/
   e = KeyError "Open" \/ e = KeyError "Date" \/ e = ValueError).
Proof.
  intros Hwf.
  destruct (app_exit loaded fetched)
    as [e0 Hl | models Hl Hne | models e0 Hl Hne Hfe | models df Hl Hne Hfe Hm
        | models df e0 Hl Hne Hfe Hm Hdrop
        | models df df' Hl Hne Hfe Hm Hdrop Hemp
        | models df df' e0 Hl Hne Hfe Hm Hdrop Hemp Hrow
        | models df df' v e0 Hl Hne Hfe Hm Hdrop Hemp Hrow Hdate
        | models df df' v d Hl Hne Hfe Hm Hdrop Hemp Hrow Hdate];
    cbn [fst snd]; intros Hend; try discriminate Hend.
  - injection Hend as ->. split; [reflexivity |].
    destruct (feature_engineering_error _ _ Hfe) as (name & Hin & ->).
    unfold raw_inputs in Hin. simpl in Hin.
    destruct Hin as [<- | [<- | [<- | [<- | []]]]]; tauto.
  - exfalso.
    destruct (engineered_uniform fetched df Hwf Hfe) as (Hu & _ & _).
    destruct (dropna_rows df features Hu (missing_nil df Hm)) as (df2 & Hd2 & _).
    unfold ok in Hd2. rewrite Hdrop in Hd2. discriminate.
  - exfalso.
    destruct (past_filter fetched df df' Hwf Hfe Hm Hdrop Hemp) as (_ & Hr & _).
    unfold ok in Hr. rewrite Hrow in Hr. discriminate.
  - injection Hend as ->. split; [reflexivity |].
    destruct (past_filter fetched df df' Hwf Hfe Hm Hdrop Hemp)
      as (_ & _ & Hd1 & Hd2).
    destruct (has_column_cases df "Date") as [[_ [s Hs]] | [Hno _]].
    + rewrite (Hd1 s Hs) in Hdate.
      destruct (nth _ s NaN); cbn in Hdate; try discriminate;
        injection Hdate as <-; tauto.
    + rewrite (Hd2 Hno) in Hdate. injection Hdate as <-. tauto.
  - exfalso. exact (inference_never_uncaught models v d e Hend).
Qed.

Lemma X14_uncaught_exceptions_witness :
  snd (app (ok (stub_models 1 2)) no_close_column)
  = inl (Uncaught (KeyError "Close")) /\
  fst (app (ok (stub_models 1 2)) no_close_column) = [].
Proof.
  assert (Hend : snd (app (ok (stub_models 1 2)) no_close_column)
                 = inl (Uncaught (KeyError "Close"))) by reflexivity.
  split; [exact Hend |].
  exact (proj1 (X14_uncaught_exceptions (ok (stub_models 1 2)) no_close_column
                  (KeyError "Close") no_close_column_well_formed Hend)).
Defined.

(** X15.  A run that stops has shown exactly one error box, as the last
    event of its trace.  Before the box there are only model calls, and
    there are some only when the box is the prediction error; no result is
    ever displayed in a run that stops. *)
Theorem X15_stopped_runs (loaded : result Models) (fetched : Fetched) :
  snd (app loaded fetched) = inl Stopped ->
  exists calls box,
    fst (app loaded fetched) = calls ++ [StError box] /\
    forallb is_predict calls = true /\
    ((forall e, box <> ErrPrediction e) -> calls = []).
Proof.
  destruct (app_exit loaded fetched)
    as [e0 Hl | models Hl Hne | models e0 Hl Hne Hfe | models df Hl Hne Hfe Hm
        | models df e0 Hl Hne Hfe Hm Hdrop
        | models df df' Hl Hne Hfe Hm Hdrop Hemp
        | models df df' e0 Hl Hne Hfe Hm Hdrop Hemp Hrow
        | models df df' v e0 Hl Hne Hfe Hm Hdrop Hemp Hrow Hdate
        | models df df' v d Hl Hne Hfe Hm Hdrop Hemp Hrow Hdate];
    try (cbn [fst snd]; intros Hend; discriminate Hend);
    try (cbn [fst snd]; intros _; eexists [], _;
         split; [reflexivity | split; [reflexivity | intros _; reflexivity]]).
  rewrite inference_cases.
  destruct (output (reg_model models) v) as [e1 | pc].
  { intros _. exists [Predict RegModel [v]], (ErrPrediction e1).
    repeat split. intros H. now elim (H e1). }
  destruct (output (clf_model models) v) as [e2 | pd].
  { intros _. exists [Predict RegModel [v]; Predict ClfModel [v]], (ErrPrediction e2).
    repeat split. intros H. now elim (H e2). }
  destruct (output (signal_model models) v) as [e3 | ps]; [| discriminate].
  intros _.
  exists [Predict RegModel [v]; Predict ClfModel [v]; Predict SignalModel [v]],
         (ErrPrediction e3).
  repeat split. intros H. now elim (H e3).
Qed.

Lemma X15_stopped_runs_witness :
  exists calls box,
    fst (app (ok (stub_models 1 2)) three_days) = calls ++ [StError box] /\
    forallb is_predict calls = true.
Proof.
  destruct (X15_stopped_runs (ok (stub_models 1 2)) three_days)
    as (calls & box & Ht & Hp & _).
  - rewrite (short_series_no_rows (stub_models 1 2) three_days
               three_days_well_formed); try reflexivity.
    simpl. lia.
  - exists calls, box. split; assumption.
Defined.

(** X16.  A run that reaches its last line has shown no error box: its
    trace is the three model calls, each on the same selected vector,
    followed by the date, the vector itself, the regressor's output and
    the decoded direction and signal. *)
Theorem X16_finished_runs (loaded : result Models) (fetched : Fetched) :
  snd (app loaded fetched) = inr tt ->
  exists models v d pred_close pred_direction pred_signal,
    loaded = ok models /\
    selects fetched v d /\
    output (reg_model models) v = ok pred_close /\
    output (clf_model models) v = ok pred_direction /\
    output (signal_model models) v = ok pred_signal /\
    fst (app loaded fetched)
    = [Predict RegModel [v]; Predict ClfModel [v]; Predict SignalModel [v];
       StDate d; StDataframe v; StSuccess pred_close;
       StInfo (direction_text pred_direction);
       StWarning (signal_text pred_signal); StExplain d].
Proof.
  destruct (app_exit loaded fetched)
    as [e0 Hl | models Hl Hne | models e0 Hl Hne Hfe | models df Hl Hne Hfe Hm
        | models df e0 Hl Hne Hfe Hm Hdrop
        | models df df' Hl Hne Hfe Hm Hdrop Hemp
        | models df df' e0 Hl Hne Hfe Hm Hdrop Hemp Hrow
        | models df df' v e0 Hl Hne Hfe Hm Hdrop Hemp Hrow Hdate
        | models df df' v d Hl Hne Hfe Hm Hdrop Hemp Hrow Hdate];
    try (cbn [fst snd]; intros Hend; discriminate Hend).
  rewrite inference_cases.
  destruct (output (reg_model models) v) as [e1 | pc] eqn:Hr; [discriminate |].
  destruct (output (clf_model models) v) as [e2 | pd] eqn:Hc; [discriminate |].
  destruct (output (signal_model models) v) as [e3 | ps] eqn:Hs; [discriminate |].
  intros _. exists models, v, d, pc, pd, ps.
  split; [exact Hl |]. split.
  { split; [exact Hne |]. exists df, df'.
    split; [exact Hfe |]. split; [exact (missing_nil df Hm) |].
    split; [exact Hdrop |]. split; [exact Hemp |]. split; [exact Hrow | exact Hdate]. }
  split; [exact Hr |]. split; [exact Hc |]. split; [exact Hs | reflexivity].
Qed.

Lemma X16_finished_runs_witness :
  exists models v d pred_close pred_direction pred_signal,
    ok (stub_models 1 2) = ok models /\
    selects ten_days v d /\
    output (reg_model models) v = ok pred_close /\
    output (clf_model models) v = ok pred_direction /\
    output (signal_model models) v = ok pred_signal /\
    fst (app (ok (stub_models 1 2)) ten_days)
    = [Predict RegModel [v]; Predict ClfModel [v]; Predict SignalModel [v];
       StDate d; StDataframe v; StSuccess pred_close;
       StInfo (direction_text pred_direction);
       StWarning (signal_text pred_signal); StExplain d].
Proof.
  apply (X16_finished_runs (ok (stub_models 1 2)) ten_days).
  destruct ten_days_selects as (_ & _ & v & _ & _ & _ & _ & _ & _ & _ & Hsel).
  now rewrite (app_success (stub_models 1 2) ten_days v 10
                 (hd NaN v) 1 2 Hsel eq_refl eq_refl eq_refl).
Defined.

(** X17.  On a well-formed table, whatever a model is called with is a
    batch of one vector of exactly ten cells, none of which is NaN. *)
Theorem X17_models_never_see_nan (loaded : result Models) (fetched : Fetched)
      (m : model_id) (X : list (list fval)) :
  well_formed fetched ->
  In (Predict m X) (fst (app loaded fetched)) ->
  exists v, X = [v] /\ length v = 10%nat /\ Forall (fun c => c <> NaN) v.
Proof.
  intros Hwf.
  destruct (app_exit loaded fetched)
    as [e0 Hl | models Hl Hne | models e0 Hl Hne Hfe | models df Hl Hne Hfe Hm
        | models df e0 Hl Hne Hfe Hm Hdrop
        | models df df' Hl Hne Hfe Hm Hdrop Hemp
        | models df df' e0 Hl Hne Hfe Hm Hdrop Hemp Hrow
        | models df df' v e0 Hl Hne Hfe Hm Hdrop Hemp Hrow Hdate
        | models df df' v d Hl Hne Hfe Hm Hdrop Hemp Hrow Hdate];
    try (cbn [fst In]; intros Hin;
         repeat (destruct Hin as [Hin | Hin]; [discriminate Hin |]);
         contradiction).
  destruct (past_filter fetched df df' Hwf Hfe Hm Hdrop Hemp) as (Hj & Hr & _).
  unfold ok in Hr. rewrite Hrow in Hr. injection Hr as ->.
  intros Hin. exists (row df features (last (kept_rows df features) 0%nat)).
  split; [| split; [apply row_length | now apply kept_row_no_nan]].
  revert Hin. rewrite inference_cases.
  destruct (output (reg_model models) _) as [e1 | pc];
    [| destruct (output (clf_model models) _) as [e2 | pd];
       [| destruct (output (signal_model models) _) as [e3 | ps]]];
    cbn; intros Hin;
    repeat (destruct Hin as [Hin | Hin]; [congruence |]); contradiction.
Qed.

Lemma X17_models_never_see_nan_witness :
  exists v,
    length v = 10%nat /\ Forall (fun c => c <> NaN) v /\
    In (Predict RegModel [v]) (fst (app (ok (stub_models 1 2)) ten_days)).
Proof.
  destruct ten_days_selects as (_ & _ & v & _ & _ & _ & _ & _ & _ & _ & Hsel).
  assert (Hin : In (Predict RegModel [v])
                   (fst (app (ok (stub_models 1 2)) ten_days))).
  { rewrite (app_success (stub_models 1 2) ten_days v 10
               (hd NaN v) 1 2 Hsel eq_refl eq_refl eq_refl).
    now left. }
  destruct (X17_models_never_see_nan (ok (stub_models 1 2)) ten_days
              RegModel [v] ten_days_well_formed Hin) as (v' & Hv & Hlen & Hnan).
  injection Hv as <-.
  exists v. split; [exact Hlen | split; [exact Hnan | exact Hin]].
Defined.

Lemma missing_after_engineering (df0 df : DataFrame) :
  feature_engineering df0 = inr df ->
  missing df = if has_column df "Volume" then [] else ["Volume"%string].
Proof.
  intros Hfe.
  destruct (feature_engineering_inv df0 df Hfe)
    as (close & high & low & open & Hc & Hh & Hl & Ho).
  pose proof (feature_engineering_value df0 close high low open Hc Hh Hl Ho) as Hval.
  unfold ok in Hval. rewrite Hfe in Hval. injection Hval as Hval.
  assert (Hhas : forall name s, getitem df name = ok s -> has_column df name = true).
  { intros name s H. apply has_column_getitem. now exists s. }
  unfold missing, features. cbn [filter].
  rewrite (Hhas "Open"%string open) by (rewrite Hval; now get_through).
  rewrite (Hhas "High"%string high) by (rewrite Hval; now get_through).
  rewrite (Hhas "Low"%string low) by (rewrite Hval; now get_through).
  rewrite (Hhas "Sma_5"%string _ ltac:(rewrite Hval; get_through; reflexivity)).
  rewrite (Hhas "Sma_10"%string _ ltac:(rewrite Hval; get_through; reflexivity)).
  rewrite (Hhas "Price_Range"%string _ ltac:(rewrite Hval; get_through; reflexivity)).
  rewrite (Hhas "Daily_Change_%"%string _ ltac:(rewrite Hval; get_through; reflexivity)).
  rewrite (Hhas "Rolling_Std_5"%string _ ltac:(rewrite Hval; get_through; reflexivity)).
  rewrite (Hhas "Close/Open"%string _ ltac:(rewrite Hval; get_through; reflexivity)).
  cbn [negb]. now destruct (has_column df "Volume").
Qed.

(** X18.  The missing-columns box can name one column only: whenever a run
    shows it, the list it shows is exactly Volume. *)
Theorem X18_missing_box_names_volume (loaded : result Models) (fetched : Fetched)
      (cols : list string) :
  In (StError (ErrMissingColumns cols)) (fst (app loaded fetched)) ->
  cols = ["Volume"%string].
Proof.
  destruct (app_exit loaded fetched)
    as [e0 Hl | models Hl Hne | models e0 Hl Hne Hfe | models df Hl Hne Hfe Hm
        | models df e0 Hl Hne Hfe Hm Hdrop
        | models df df' Hl Hne Hfe Hm Hdrop Hemp
        | models df df' e0 Hl Hne Hfe Hm Hdrop Hemp Hrow
        | models df df' v e0 Hl Hne Hfe Hm Hdrop Hemp Hrow Hdate
        | models df df' v d Hl Hne Hfe Hm Hdrop Hemp Hrow Hdate].
  - cbn. intros [H | []]. discriminate H.
  - cbn. intros [H | []]. discriminate H.
  - cbn. intros [].
  - cbn [fst In]. intros [H | []]. injection H as <-.
    rewrite (missing_after_engineering _ df Hfe) in Hm |- *.
    destruct (has_column df "Volume"); [contradiction | reflexivity].
  - cbn. intros [].
  - cbn. intros [H | []]. discriminate H.
  - cbn. intros [].
  - cbn. intros [].
  - rewrite inference_cases.
    destruct (output (reg_model models) _) as [e1 | pc];
      [| destruct (output (clf_model models) _) as [e2 | pd];
         [| destruct (output (signal_model models) _) as [e3 | ps]]];
      cbn; intros Hin;
      repeat (destruct Hin as [Hin | Hin]; [discriminate Hin |]); contradiction.
Qed.

Lemma no_volume_column_run :
  app (ok (stub_models 1 2)) no_volume_column
  = ([StError (ErrMissingColumns ["Volume"%string])], inl Stopped).
Proof. reflexivity. Qed.

Lemma X18_missing_box_names_volume_witness :
  In (StError (ErrMissingColumns ["Volume"%string]))
     (fst (app (ok (stub_models 1 2)) no_volume_column)) /\
  ["Volume"%string] = ["Volume"%string].
Proof.
  assert (Hin : In (StError (ErrMissingColumns ["Volume"%string]))
                   (fst (app (ok (stub_models 1 2)) no_volume_column)))
    by (rewrite no_volume_column_run; now left).
  split; [exact Hin |].
  exact (X18_missing_box_names_volume (ok (stub_models 1 2)) no_volume_column
           ["Volume"%string] Hin).
Defined.

Lemma engineered_row_at (df0 : DataFrame) (n : nat) (volumes : Series)
      (opens highs lows closes : list R) :
  uniform df0 n ->
  getitem df0 "Close" = ok (map Fin closes) ->
  getitem df0 "High" = ok (map Fin highs) ->
  getitem df0 "Low" = ok (map Fin lows) ->
  getitem df0 "Open" = ok (map Fin opens) ->
  getitem df0 "Volume" = ok volumes ->
  exists df,
    feature_engineering df0 = ok df /\
    nrows df = n /\
    forall i, (i < n)%nat ->
      row df features i
      = [Fin (nth i opens 0); Fin (nth i highs 0); Fin (nth i lows 0);
         nth i volumes NaN;
         nth i (rolling_mean 5 (map Fin closes)) NaN;
         nth i (rolling_mean 10 (map Fin closes)) NaN;
         Fin (nth i highs 0 - nth i lows 0);
         daily_change_pct (Fin (nth i closes 0)) (Fin (nth i opens 0));
         nth i (rolling_std 5 (map Fin closes)) NaN;
         close_over_open (Fin (nth i closes 0)) (Fin (nth i opens 0))].
Proof.
  intros Hu Hc Hh Hl Ho Hv.
  destruct (feature_engineering_columns df0 n _ _ _ _ Hu Hc Hh Hl Ho)
    as (df & Hfe & Hu' & Hn & Go & Gh & Gl & Gv & Gd & G5 & G10 & Gr & Gp & Gs & Gq).
  rewrite Hv in Gv.
  pose proof (getitem_length _ _ _ _ Hu Hc) as Lc. rewrite length_map in Lc.
  pose proof (getitem_length _ _ _ _ Hu Hh) as Lh. rewrite length_map in Lh.
  pose proof (getitem_length _ _ _ _ Hu Hl) as Ll. rewrite length_map in Ll.
  pose proof (getitem_length _ _ _ _ Hu Ho) as Lo. rewrite length_map in Lo.
  exists df. split; [exact Hfe |]. split; [exact Hn |].
  intros i Hi. unfold row, features. cbn [map].
  rewrite (cell_of _ _ _ i Go), (cell_of _ _ _ i Gh), (cell_of _ _ _ i Gl),
    (cell_of _ _ _ i Gv), (cell_of _ _ _ i G5), (cell_of _ _ _ i G10),
    (cell_of _ _ _ i Gr), (cell_of _ _ _ i Gp), (cell_of _ _ _ i Gs),
    (cell_of _ _ _ i Gq).
  rewrite series_mul_scalar_nth.
  unfold series_sub, series_div.
  rewrite !zip_with_nth;
    rewrite ?(zip_with_length fsub _ _ n), ?length_map; try lia.
  rewrite !nth_map_Fin by lia.
  reflexivity.
  all: rewrite length_map; assumption.
Qed.

(** X19.  When the date column of the formatted table is not called Date
    (an index without a name, for one), a run that has a complete row ends
    after the filter with an uncaught [KeyError] for Date: no box is shown
    and no model is called. *)
Theorem X19_missing_date_uncaught (models : Models) (fetched : Fetched)
      (df : DataFrame) :
  well_formed fetched ->
  fetched_empty fetched = false ->
  feature_engineering (format_columns (reset_index fetched)) = ok df ->
  has_column (format_columns (reset_index fetched)) "Volume" = true ->
  kept_rows df features <> [] ->
  has_column (format_columns (reset_index fetched)) "Date" = false ->
  app (ok models) fetched = ([], inl (Uncaught (KeyError "Date"))).
Proof.
  intros Hwf Hne Hfe Hvol Hkept Hdate.
  destruct (feature_engineering_inv _ _ Hfe)
    as (close & high & low & open & Hc & Hh & Hl & Ho).
  destruct (feature_engineering_columns _ _ close high low open
              (well_formed_uniform fetched Hwf) Hc Hh Hl Ho)
    as (df2 & Hfe2 & _ & _ & _ & _ & _ & Gv & Gd & _).
  rewrite Hfe in Hfe2. injection Hfe2 as <-.
  assert (Hv : has_column df "Volume" = true).
  { apply has_column_getitem in Hvol. destruct Hvol as [s Hs].
    apply has_column_getitem. exists s. now rewrite Gv. }
  assert (Hm : missing df = []).
  { rewrite (missing_after_engineering _ df Hfe). now rewrite Hv. }
  assert (Hd : has_column df "Date" = false).
  { destruct (has_column_cases df "Date") as [[_ [s Hs]] | [Hno _]]; [| exact Hno].
    rewrite Gd in Hs.
    assert (Hyes : has_column (format_columns (reset_index fetched)) "Date" = true)
      by (apply has_column_getitem; now exists s).
    congruence. }
  destruct (engineered_uniform fetched df Hwf Hfe) as (Hu & Hdf & _).
  destruct (dropna_rows df features Hu (missing_nil df Hm))
    as (df' & Hdrop & Hlen & _ & _ & Hnr).
  assert (Hemp : empty df' = false).
  { rewrite (empty_after_dropna df df' features Hdf Hlen (Hnr Hdf)).
    destruct (kept_rows df features); [contradiction | reflexivity]. }
  destruct (past_filter fetched df df' Hwf Hfe Hm Hdrop Hemp) as (_ & Hrow & _ & Hnodate).
  unfold app. cbn [lift ok try_except bind]. rewrite Hne.
  rewrite Hfe. cbn [lift ok bind]. fold (missing df). rewrite Hm.
  cbn [length Nat.eqb negb].
  rewrite Hdrop. cbn [lift ok bind]. rewrite Hemp.
  rewrite Hrow. cbn [lift ok bind]. rewrite (Hnodate Hd). reflexivity.
Qed.

Lemma unnamed_index_well_formed : well_formed unnamed_index.
Proof.
  split.
  - repeat constructor; simpl; intros H;
      repeat (destruct H as [H | H]; [discriminate H |]); exact H.
  - repeat constructor.
Qed.

Lemma X19_missing_date_uncaught_witness :
  app (ok (stub_models 1 2)) unnamed_index
  = ([], inl (Uncaught (KeyError "Date"))).
Proof.
  destruct (engineered_row_at (format_columns (reset_index unnamed_index)) 10
              (repeat (Fin 0) 10) one_to_ten one_to_ten one_to_ten one_to_ten
              (well_formed_uniform _ unnamed_index_well_formed)
              eq_refl eq_refl eq_refl eq_refl eq_refl)
    as (df & Hfe & Hn & Hrow).
  apply (X19_missing_date_uncaught (stub_models 1 2) unnamed_index df
           unnamed_index_well_formed eq_refl Hfe eq_refl).
  - assert (Hin : In 9%nat (kept_rows df features)).
    { apply kept_rows_spec. split; [rewrite Hn; lia |].
      rewrite complete_row, Hrow by lia. cbn [forallb].
      rewrite (sma_5_closed_form _ (fun k => nth k one_to_ten 0) 9);
        [| simpl; lia | intros k Hk; apply ten_days_cells; lia].
      rewrite (sma_10_closed_form _ (fun k => nth k one_to_ten 0) 9);
        [| simpl; lia | intros k Hk; apply ten_days_cells; lia].
      rewrite (rolling_std_5_closed_form _ (fun k => nth k one_to_ten 0) 9);
        [| simpl; lia | intros k Hk; apply ten_days_cells; lia].
      cbn [nth one_to_ten repeat].
      rewrite daily_change_pct_fin, close_over_open_fin by lra.
      reflexivity. }
    intros Hnil. rewrite Hnil in Hin. contradiction.
  - reflexivity.
Defined.
